(** * gdpsxyz: the session lifecycle, the error mapping and the resource
      operations of the gdps.xyz client, as a shallow embedding.

    The client is a thin layer over [requests]: every operation checks its
    arguments, builds one HTTP request, sends it and turns the reply into a
    data object or an exception.  The embedding keeps that shape:

    - Python values that cross the API (arguments, JSON payloads) are
      [pyval];
    - exceptions are values of [exn]; a computation that may raise returns a
      [result];
    - the module-level variable [_authorization], the [Session] objects it
      may alias and the requests sent so far form the [World]; operations
      are state transformers over it ([M]);
    - the remote service is a parameter [server] of the development. *)

From Stdlib Require Import ZArith Lia.
From stdpp Require Import base option list strings.

Set Warnings "-register-all".
Open Scope string_scope.
Open Scope Z_scope.

(** ** Python values *)

(** The values that reach the client as arguments or in JSON bodies.
    Dictionaries keep insertion order, as Python's do.  Floating-point
    numbers are left out: no operation of the client looks into one. *)
Inductive pyval : Type :=
| PNone
| PBool (b : bool)
| PInt (n : Z)
| PStr (s : string)
| PList (l : list pyval)
| PDict (d : list (string * pyval)).

Abbreviation dict := (list (string * pyval)).

(** [bool(v)] *)
Definition truthy (v : pyval) : bool :=
  match v with
  | PNone => false
  | PBool b => b
  | PInt n => negb (n =? 0)
  | PStr s => negb (String.eqb s "")
  | PList l => match l with [] => false | _ => true end
  | PDict d => match d with [] => false | _ => true end
  end.

(** [isinstance(v, int)]: [bool] is a subclass of [int]. *)
Definition isinstance_int (v : pyval) : bool :=
  match v with PInt _ | PBool _ => true | _ => false end.

Definition isinstance_str (v : pyval) : bool :=
  match v with PStr _ => true | _ => false end.

Definition isinstance_dict (v : pyval) : bool :=
  match v with PDict _ => true | _ => false end.

(** [type(v).__name__], as it appears in an [AttributeError]. *)
Definition type_name (v : pyval) : string :=
  match v with
  | PNone => "NoneType"
  | PBool _ => "bool"
  | PInt _ => "int"
  | PStr _ => "str"
  | PList _ => "list"
  | PDict _ => "dict"
  end.

(** An f-string, kept as its literal and interpolated pieces. *)
Inductive piece : Type :=
| Lit (s : string)
| Fmt (v : pyval).

Abbreviation fstring := (list piece).

(** The text produced by [json.dumps v]. *)
Inductive json_text : Type :=
| json_dumps (v : pyval).

(** ** HTTP *)

Inductive Method : Type := GET | POST | PUT | DELETE.

Record Request : Type := mkRequest {
  method : Method;
  url : fstring;
  params : dict;
  data : option json_text;
  headers : list (string * fstring)
}.

(** What the client reads of a [requests.Response]; [json_body = None]
    stands for a body that [r.json()] cannot decode. *)
Record Response : Type := mkResponse {
  status_code : Z;
  reason : string;
  json_body : option pyval
}.

(** ** errors.py *)

Module errors.

Inductive kind : Type :=
| BadRequest
| InternalServerError
| NotFound
| RegistrationError
| ActivationError
| AuthorizationError
| PasswordRestoreError
| AccountDeletionError
| OutOfRateLimits
| NotAllowed
| InvalidToken
| NotInitialized
| NotAcceptable
| AlreadyExists.

End errors.

(** Exceptions: the library's own ([XYZException] and its subclasses, told
    apart by [errors.kind]) and the built-in ones its code can raise. *)
Inductive exn : Type :=
| XYZException (k : errors.kind) (res : Response) (msg : option string)
| AssertionError (msg : string)
| AttributeError (type_of_obj attr : string)
| TypeError
| ValueError
| StopIteration
| KeyError (key : string)
| JSONDecodeError
| ConnectionError
| SystemError.

Inductive result (A : Type) : Type :=
| Ok (a : A)
| Raise (e : exn).
Arguments Ok {A} a.
Arguments Raise {A} e.

Definition result_bind {A B} (f : A → result B) (r : result A) : result B :=
  match r with
  | Ok a => f a
  | Raise e => Raise e
  end.

#[global] Instance result_ret : MRet result := λ _ a, Ok a.
#[global] Instance result_mbind : MBind result := λ _ _ f r, result_bind f r.

(** [assert b, msg] *)
Definition assert_ (b : bool) (msg : string) : result unit :=
  if b then Ok tt else Raise (AssertionError msg).

(** [v.get(key)] *)
Fixpoint dict_get (d : dict) (key : string) : option pyval :=
  match d with
  | [] => None
  | (k, v) :: d' => if String.eqb k key then Some v else dict_get d' key
  end.

Definition py_get_default (v : pyval) (key : string) (default : pyval)
  : result pyval :=
  match v with
  | PDict d => Ok (from_option (λ x, x) default (dict_get d key))
  | _ => Raise (AttributeError (type_name v) "get")
  end.

Definition py_get (v : pyval) (key : string) : result pyval :=
  py_get_default v key PNone.

(** The first argument of an exception constructor: a response at every
    call site but one, which passes a string. *)
Inductive pyobj : Type :=
| OResp (r : Response)
| OVal (v : pyval).

(** [XYZException.__init__(self, res, msg)]: building [exc_data] reads
    [self.res.status_code] and [self.res.reason]. *)
Definition XYZException_init (k : errors.kind) (res : pyobj)
    (msg : option string) : result exn :=
  match res with
  | OResp r => Ok (XYZException k r msg)
  | OVal v => Raise (AttributeError (type_name v) "status_code")
  end.

(** [self.exc_data] *)
Definition exc_data (r : Response) (msg : option string) : fstring :=
  [Lit "("; Fmt (PInt (status_code r)); Lit " | "; Fmt (PStr (reason r)); Lit ")"]
  ++ match msg with
     | Some m => if negb (String.eqb m "") then [Lit " "; Fmt (PStr m)] else []
     | None => []
     end.

(** [raise E(res, msg)] *)
Definition raise_new {A} (k : errors.kind) (res : pyobj) (msg : option string)
  : result A :=
  e ← XYZException_init k res msg; Raise e.

(** ** api.py: the generic error mapper *)

(** The dictionary built at the top of [_raise_for_errors]; all seven
    exceptions are constructed before the status code is looked at. *)
Definition raises (r : Response) : result (list (Z * exn)) :=
  e400 ← XYZException_init errors.BadRequest (OResp r) None;
  e401 ← XYZException_init errors.NotInitialized (OResp r)
           (Some "you have hot initialized your session or did it wrong.");
  e404 ← XYZException_init errors.NotFound (OResp r)
           (Some "can not act with object.");
  e406 ← XYZException_init errors.NotAcceptable (OResp r)
           (Some "check the request data you trying to send.");
  e409 ← XYZException_init errors.NotAcceptable (OResp r)
           (Some "Attachment error. Check your avatar or background url validation.");
  e429 ← XYZException_init errors.OutOfRateLimits (OResp r) None;
  e500 ← XYZException_init errors.InternalServerError (OResp r)
           (Some "a server side error has occured. Contact developers for help.");
  Ok [(400, e400); (401, e401); (404, e404); (406, e406); (409, e409);
      (429, e429); (500, e500)].

Fixpoint table_get {A} (t : list (Z * A)) (code : Z) : option A :=
  match t with
  | [] => None
  | (c, a) :: t' => if c =? code then Some a else table_get t' code
  end.

(** [code in exc_of] for a tuple of integers *)
Definition in_tuple (code : Z) (exc_of : list Z) : bool :=
  existsb (Z.eqb code) exc_of.

Definition _raise_for_errors (r : Response) (exc_of : list Z) : result unit :=
  tbl ← raises r;
  match table_get tbl (status_code r) with
  | Some e => if negb (in_tuple (status_code r) exc_of) then Raise e else Ok tt
  | None => Ok tt
  end.

(** ** The client's state *)

(** [Session], with the [id] slot it inherits from [Object]. *)
Record Session : Type := mkSession {
  Session_id : pyval;
  Session_token : pyval;
  Session_refresh_token : pyval;
  Session_token_expiration : pyval;
  Session_refresh_token_expiration : pyval
}.

(** A reference to a [Session] object: its index in the store. *)
Abbreviation ref := nat.

(** [store] holds the [Session] objects created so far (they are mutable
    and [_authorization] aliases one of them); [log] is the list of
    requests handed to [requests], oldest first. *)
Record World : Type := mkWorld {
  store : list Session;
  _authorization : option ref;
  log : list Request
}.

Definition M (A : Type) : Type := World → result A * World.

Definition M_bind {A B} (f : A → M B) (m : M A) : M B :=
  λ w, match m w with
       | (Ok a, w') => f a w'
       | (Raise e, w') => (Raise e, w')
       end.

#[global] Instance M_ret : MRet M := λ _ a w, (Ok a, w).
#[global] Instance M_mbind : MBind M := λ _ _ f m, M_bind f m.

Definition lift {A} (r : result A) : M A := λ w, (r, w).

Definition when (b : bool) (m : M unit) : M unit :=
  if b then m else mret tt.

(** Runs [m] and hands its outcome, normal or exceptional, to the caller. *)
Definition try_ {A} (m : M A) : M (result A) :=
  λ w, let '(r, w') := m w in (Ok r, w').

Definition get_authorization : M (option ref) :=
  λ w, (Ok (_authorization w), w).

Definition set_authorization (a : option ref) : M unit :=
  λ w, (Ok tt, mkWorld (store w) a (log w)).

(** Reading through a reference.  Every reference the client holds was
    returned by [alloc], so the [SystemError] branch is never taken from a
    state the client itself produced. *)
Definition deref (self : ref) : M Session :=
  λ w, match store w !! self with
       | Some s => (Ok s, w)
       | None => (Raise SystemError, w)
       end.

Definition alloc (s : Session) : M ref :=
  λ w, (Ok (length (store w)), mkWorld (store w ++ [s]) (_authorization w) (log w)).

Definition write (self : ref) (s : Session) : M unit :=
  λ w, (Ok tt, mkWorld (<[self := s]> (store w)) (_authorization w) (log w)).

(** [self.token = tok] *)
Definition set_token (self : ref) (tok : pyval) : M unit :=
  s ← deref self;
  write self (mkSession (Session_id s) tok (Session_refresh_token s)
                (Session_token_expiration s)
                (Session_refresh_token_expiration s)).

(** [isinstance(_authorization, Session)]: the variable is [None] until
    [Session.init] stores a session in it. *)
Definition isinstance_Session (a : option ref) : bool :=
  match a with Some _ => true | None => false end.

(** [bool(_authorization)]: [Session] defines neither [__bool__] nor
    [__len__], so every session object is true. *)
Definition truthy_ref (a : option ref) : bool :=
  match a with Some _ => true | None => false end.

Definition application_json : string * fstring :=
  ("content-type", [Lit "application/json"]).

(** ['authorization': f'Bearer {tok}'] *)
Definition bearer (tok : pyval) : string * fstring :=
  ("authorization", [Lit "Bearer "; Fmt tok]).

(** [r.json().get('data')] *)
Definition json_data (r : Response) : result pyval :=
  match json_body r with
  | None => Raise JSONDecodeError
  | Some j => py_get j "data"
  end.

(** The values a [for] loop or a comprehension draws from [v]. *)
Definition py_iter (v : pyval) : result (list pyval) :=
  match v with
  | PList l => Ok l
  | PDict d => Ok (map (λ kv, PStr (fst kv)) d)
  | PStr s => Ok (map (λ c, PStr (String c EmptyString)) (String.list_ascii_of_string s))
  | _ => Raise TypeError
  end.

Fixpoint result_mapM {A B} (f : A → result B) (l : list A) : result (list B) :=
  match l with
  | [] => Ok []
  | a :: l' => b ← f a; bs ← result_mapM f l'; Ok (b :: bs)
  end.

(** ** Data objects *)

(** [v.get('timestamps', {}).get(key)] *)
Definition timestamp (v : pyval) (key : string) : result pyval :=
  ts ← py_get_default v "timestamps" (PDict []); py_get ts key.

Record SessionInfo : Type := mkSessionInfo {
  SessionInfo_id : pyval;
  SessionInfo_created_at : pyval;
  SessionInfo_last_updated_at : pyval;
  SessionInfo__ips : pyval;
  SessionInfo_refresh_count : pyval
}.

Definition SessionInfo_init (session : pyval) : result SessionInfo :=
  ips ← py_get session "ips";
  refresh_count ← py_get session "refreshCount";
  id ← py_get session "id";
  created ← timestamp session "createdOn";
  updated ← timestamp session "lastUpdatedSessionOn";
  Ok (mkSessionInfo id created updated ips refresh_count).

Record Account : Type := mkAccount {
  Account_id : pyval;
  Account_created_at : pyval;
  Account_last_updated_at : pyval;
  Account_permission_level : pyval;
  Account_username : pyval;
  Account_avatar_url : pyval
}.

Definition Account_init (account : pyval) : result Account :=
  permission_level ← py_get account "permissionLevel";
  username ← py_get account "username";
  avatar_url ← py_get account "avatarUrl";
  id ← py_get account "id";
  created ← py_get account "accountCreatedOn";
  updated ← py_get account "accountLastUpdatedOn";
  Ok (mkAccount id created updated permission_level username avatar_url).

Record MyAccount : Type := mkMyAccount {
  MyAccount__email : pyval;
  MyAccount_account : Account
}.

Definition MyAccount_init (account : pyval) : result MyAccount :=
  email ← py_get account "email";
  base ← Account_init account;
  Ok (mkMyAccount email base).

Record Comment : Type := mkComment {
  Comment_id : pyval;
  Comment_created_at : pyval;
  Comment_last_updated_at : pyval;
  Comment__author : pyval;
  Comment__stats : pyval;
  Comment_gdps_id : pyval;
  Comment_text : pyval;
  Comment_content : pyval
}.

Definition Comment_init (comment : pyval) : result Comment :=
  author ← py_get comment "account";
  stats ← py_get comment "stats";
  gdps_id ← py_get comment "gdpsId";
  text ← py_get comment "text";
  id ← py_get comment "id";
  created ← timestamp comment "createdOn";
  updated ← timestamp comment "lastUpdatedOn";
  Ok (mkComment id created updated author stats gdps_id text text).

Record GDPS : Type := mkGDPS {
  GDPS_id : pyval;
  GDPS_created_at : pyval;
  GDPS_last_updated_at : pyval;
  GDPS__images : pyval;
  GDPS__owner : pyval;
  GDPS__links : pyval;
  GDPS__stats : pyval;
  GDPS_is_pre_moderated : pyval;
  GDPS_is_verified : pyval;
  GDPS_locale : pyval;
  GDPS_name : pyval;
  GDPS_desc : pyval
}.

Definition GDPS_init (gdps : pyval) : result GDPS :=
  images ← py_get gdps "images";
  owner ← py_get gdps "account";
  links ← py_get gdps "links";
  stats ← py_get gdps "stats";
  is_pre_moderated ← py_get gdps "isPreModerated";
  is_verified ← py_get gdps "isVerified";
  locale ← py_get gdps "locale";
  name ← py_get gdps "name";
  desc ← py_get gdps "desc";
  id ← py_get gdps "id";
  created ← timestamp gdps "createdOn";
  updated ← timestamp gdps "lastUpdatedOn";
  Ok (mkGDPS id created updated images owner links stats is_pre_moderated
        is_verified locale name desc).

(** [Session.__init__], before the object is placed in the store. *)
Definition Session_new (token_session : pyval) : result Session :=
  token ← py_get token_session "token";
  refresh_token ← py_get token_session "refreshToken";
  token_expiration ← py_get token_session "tokenExpiration";
  refresh_token_expiration ← py_get token_session "refreshTokenExpiration";
  id ← py_get token_session "id";
  Ok (mkSession id token refresh_token token_expiration refresh_token_expiration).

(** ** api.py: operations *)

Section Api.

(** The remote service: the reply to a request, given the requests that
    came before it; [None] is a transport failure. *)
Variable server : list Request → Request → option Response.

(** [requests.get], [.post], [.put], [.delete] *)
Definition send (rq : Request) : M Response :=
  λ w, let w' := mkWorld (store w) (_authorization w) (log w ++ [rq]) in
       match server (log w) rq with
       | Some r => (Ok r, w')
       | None => (Raise ConnectionError, w')
       end.

(** The decorator for functions and methods that require authorization. *)
Definition _auth_required {A} (req : M A) : M A :=
  a ← get_authorization;
  if negb (isinstance_Session a)
  then lift (raise_new errors.NotInitialized
               (OVal (PStr "you have not initialized your session.")) None)
  else req.

(** [_authorization.token] *)
Definition _authorization_token : M pyval :=
  a ← get_authorization;
  match a with
  | None => lift (Raise (AttributeError "NoneType" "token"))
  | Some l => s ← deref l; mret (Session_token s)
  end.

(** *** Session *)

Definition Session_init (self : ref) : M unit :=
  set_authorization (Some self).

Definition Session_info (self : ref) : M SessionInfo :=
  s ← deref self;
  r ← send (mkRequest GET
              [Lit "https://gdps.xyz/api/session/"; Fmt (Session_id s); Lit "/"]
              [] None [bearer (Session_token s)]);
  when (400 <=? status_code r)
    (lift (_raise_for_errors r [401; 404]);;
     when (status_code r =? 401)
       (lift (raise_new errors.InvalidToken (OResp r)
                (Some "invalid session token.")));;
     when (status_code r =? 404)
       (lift (raise_new errors.NotFound (OResp r)
                (Some "session was closed or not found."))));;
  session_info ← lift (json_data r);
  lift (SessionInfo_init session_info).

Definition Session_sessions (self : ref) (page : pyval) : M (list SessionInfo) :=
  lift (assert_ (isinstance_int page) "page must be an integer.");;
  lift (assert_ (truthy page) "page integer must be positive.");;
  s ← deref self;
  r ← send (mkRequest GET [Lit "https://gdps.xyz/api/session/all/"]
              [("page", page)] None [bearer (Session_token s)]);
  when (400 <=? status_code r) (lift (_raise_for_errors r []));;
  session_infos ← lift (json_data r);
  lift (items ← py_iter session_infos; result_mapM SessionInfo_init items).

Definition Session_refresh (self : ref) : M unit :=
  s ← deref self;
  r ← send (mkRequest GET [Lit "https://gdps.xyz/api/session/reauthorize/"] []
              (Some (json_dumps (PDict [("refreshToken", Session_refresh_token s)])))
              [application_json]);
  session ← lift (json_data r);
  if truthy session then
    token ← lift (py_get session "token");
    set_token self token;;
    a ← get_authorization;
    when (truthy_ref a) (Session_init self)
  else
    when (400 <=? status_code r)
      (lift (_raise_for_errors r [401]);;
       when (status_code r =? 401)
         (lift (raise_new errors.InvalidToken (OResp r)
                  (Some "Can not refresh session. Invalid refresh token.")))).

Definition Session_close (self : ref) : M unit :=
  s ← deref self;
  r ← send (mkRequest DELETE
              [Lit "https://gdps.xyz/api/session/"; Fmt (Session_id s); Lit "/"]
              [] None [application_json; bearer (Session_token s)]);
  when (400 <=? status_code r)
    (lift (_raise_for_errors r [401]);;
     when (status_code r =? 401)
       (lift (raise_new errors.InvalidToken (OResp r)
                (Some "invalid session token.")))).

Definition Session__enter__ (self : ref) : M ref :=
  Session_init self;; mret self.

(** [exc] is the exception that ended the block, [None] when the block
    ran to its end ([exc_type is None]). *)
Definition Session__exit__ (self : ref) (exc : option exn) : M bool :=
  when (match exc with None => true | Some _ => false end)
    (Session_close self);;
  mret false.

(** The [with] statement: [__enter__] is called, the block runs with its
    result, and [__exit__] is told how the block ended; an exception of
    the block is raised again unless [__exit__] returns true.  The result
    is [None] when an exception was suppressed. *)
Definition with_stmt {R A} (enter : M R) (exit : option exn → M bool)
    (block : R → M A) : M (option A) :=
  v ← enter;
  outcome ← try_ (block v);
  match outcome with
  | Ok a => exit None;; mret (Some a)
  | Raise e =>
      suppress ← exit (Some e);
      if negb suppress then lift (Raise e) else (mret None : M (option A))
  end.

(** [with session as v: block] *)
Definition with_Session {A} (self : ref) (block : ref → M A) : M (option A) :=
  with_stmt (Session__enter__ self) (Session__exit__ self) block.

(** *** MyAccount *)

Definition MyAccount_gdpslist (page : pyval) : M (list GDPS) :=
  _auth_required (
    lift (assert_ (isinstance_int page) "page must be an integer.");;
    lift (assert_ (truthy page) "page integer must be positive.");;
    token ← _authorization_token;
    r ← send (mkRequest GET [Lit "https://gdps.xyz/api/gdps/my"]
                [("page", page)] None [application_json; bearer token]);
    when (400 <=? status_code r) (lift (_raise_for_errors r []));;
    gdps_pagination ← lift (json_data r);
    lift (items ← py_iter gdps_pagination; result_mapM GDPS_init items)).

(** [islice(body, i, None)]: the start must be [None] or a non-negative
    integer. *)
Definition islice_start (i : pyval) : result nat :=
  match i with
  | PNone => Ok 0%nat
  | PInt n => if 0 <=? n then Ok (Z.to_nat n) else Raise ValueError
  | PBool b => Ok (if b then 1%nat else 0%nat)
  | _ => Raise ValueError
  end.

(** [del body[key]] *)
Fixpoint dict_del (body : dict) (key : string) : result dict :=
  match body with
  | [] => Raise (KeyError key)
  | (k, v) :: body' =>
      if String.eqb k key then Ok body'
      else rest ← dict_del body' key; Ok ((k, v) :: rest)
  end.

(** [del body[next(islice(body, i, None))]] *)
Definition del_next_islice (body : dict) (i : pyval) : result dict :=
  start ← islice_start i;
  match body.*1 !! start with
  | Some key => dict_del body key
  | None => Raise StopIteration
  end.

(** The loop shared by [MyAccount.update] and [GDPS.update]:
    [for i in args: if i: assert ...; assert ...  else: del body[...]]. *)
Fixpoint update_loop (msg : string) (args : list pyval) (body : dict)
  : result dict :=
  match args with
  | [] => Ok body
  | i :: args' =>
      body' ← (if truthy i then
                 assert_ (isinstance_str i) msg;;
                 assert_ (truthy i) "do not leave argument empty after passing it.";;
                 Ok body
               else del_next_islice body i);
      update_loop msg args' body'
  end.

Definition MyAccount_update (email password avatar_url username : pyval)
  : M unit :=
  _auth_required (
    body ← lift (update_loop "account informations must be strings."
                   [email; password; avatar_url; username]
                   [("email", email); ("password", password);
                    ("username", username)]);
    token ← _authorization_token;
    r ← send (mkRequest PUT [Lit "https://gdps.xyz/api/account/update/"] []
                (Some (json_dumps (PDict body)))
                [application_json; bearer token]);
    when (400 <=? status_code r) (lift (_raise_for_errors r []))).

Definition MyAccount_delete : M unit :=
  _auth_required (
    token ← _authorization_token;
    r ← send (mkRequest DELETE [Lit "https://gdps.xyz/api/account/delete/"] []
                None [application_json; bearer token]);
    when (400 <=? status_code r)
      (lift (_raise_for_errors r []);;
       when (status_code r =? 403)
         (lift (raise_new errors.AccountDeletionError (OResp r)
                  (Some "delete all your GDPSs before account deletion."))))).

(** *** Comment *)

Definition comment_url (self : Comment) (tail : string) : fstring :=
  [Lit "https://gdps.xyz/api/gdps/"; Fmt (Comment_gdps_id self);
   Lit "/comment/"; Fmt (Comment_id self); Lit tail].

(** Not decorated in the source, although its documentation says
    "Requires authorization". *)
Definition Comment_update (self : Comment) (text : pyval) : M unit :=
  lift (assert_ (isinstance_str text) "text must be a string.");;
  lift (assert_ (truthy text) "text can not be empty.");;
  token ← _authorization_token;
  r ← send (mkRequest PUT (comment_url self "/") []
              (Some (json_dumps (PDict [("text", text)])))
              [application_json; bearer token]);
  when (400 <=? status_code r) (lift (_raise_for_errors r [])).

Definition Comment_delete (self : Comment) : M unit :=
  _auth_required (
    token ← _authorization_token;
    r ← send (mkRequest DELETE (comment_url self "/") [] None
                [application_json; bearer token]);
    when (400 <=? status_code r) (lift (_raise_for_errors r []))).

Definition Comment_vote (self : Comment) (vote_type : pyval) : M unit :=
  _auth_required (
    lift (assert_ (isinstance_int vote_type) "vote type must be an integer.");;
    lift (assert_ (truthy vote_type)
            "vote type must be like or dislike (1 or 2).");;
    token ← _authorization_token;
    r ← send (mkRequest POST (comment_url self "/vote/") [("type", vote_type)]
                None [application_json; bearer token]);
    when (400 <=? status_code r) (lift (_raise_for_errors r []))).

Definition Comment_unvote (self : Comment) : M unit :=
  _auth_required (
    token ← _authorization_token;
    r ← send (mkRequest DELETE (comment_url self "/vote/") [] None
                [application_json; bearer token]);
    when (400 <=? status_code r)
      (lift (_raise_for_errors r []);;
       when (status_code r =? 403)
         (lift (raise_new errors.NotFound (OResp r) (Some "you have not voted."))))).

(** *** GDPS *)

Definition gdps_url (self : GDPS) (tail : string) : fstring :=
  [Lit "https://gdps.xyz/api/gdps/"; Fmt (GDPS_id self); Lit tail].

Definition server_side_error : option string :=
  Some "a server side error has occured. Contact developers for help.".

Definition GDPS_get_comment (self : GDPS) (comment_id : pyval)
  : M (option Comment) :=
  lift (assert_ (isinstance_int comment_id) "comment id must be an integer.");;
  lift (assert_ (truthy comment_id) "comment id must be positive.");;
  r ← send (mkRequest GET
              [Lit "https://gdps.xyz/api/gdps/"; Fmt (GDPS_id self);
               Lit "/comment/"; Fmt comment_id; Lit "/"] [] None []);
  when (status_code r =? 500)
    (lift (raise_new errors.InternalServerError (OResp r) server_side_error));;
  comment ← lift (json_data r);
  if isinstance_dict comment
  then c ← lift (Comment_init comment); mret (Some c)
  else mret None.

Definition GDPS_create_comment (self : GDPS) (text : pyval) : M pyval :=
  _auth_required (
    lift (assert_ (isinstance_str text) "comment text must be a string.");;
    lift (assert_ (truthy text) "comment text can not be empty.");;
    token ← _authorization_token;
    r ← send (mkRequest POST (gdps_url self "/comment/create/") []
                (Some (json_dumps (PDict [("text", text)])))
                [application_json; bearer token]);
    when (400 <=? status_code r) (lift (_raise_for_errors r []));;
    lift (json_data r)).

Definition GDPS_get_comment_page (self : GDPS) (page : pyval)
  : M (list Comment) :=
  lift (assert_ (isinstance_int page) "page must be an integer.");;
  lift (assert_ (truthy page) "page integer must be positive.");;
  r ← send (mkRequest GET (gdps_url self "/comment/all/") [("page", page)]
              None []);
  when (400 <=? status_code r) (lift (_raise_for_errors r []));;
  comments ← lift (json_data r);
  lift (items ← py_iter comments; result_mapM Comment_init items).

Definition GDPS_update (self : GDPS)
    (name desc link dashboard_link download_windows download_android
     locale avatar_url background_url : pyval) : M unit :=
  _auth_required (
    body ← lift (update_loop "GDPS update informations must be strings."
                   [name; desc; link; dashboard_link; download_windows;
                    download_android; locale; avatar_url; background_url]
                   [("name", name); ("desc", desc); ("link", link);
                    ("dashboardLink", dashboard_link);
                    ("downloadWindowsLink", download_windows);
                    ("downloadAndroidLink", download_android);
                    ("locale", locale); ("avatarUrl", avatar_url);
                    ("backgroundUrl", background_url)]);
    token ← _authorization_token;
    r ← send (mkRequest PUT (gdps_url self "") []
                (Some (json_dumps (PDict body)))
                [application_json; bearer token]);
    when (400 <=? status_code r) (lift (_raise_for_errors r []))).

Definition GDPS_delete (self : GDPS) : M unit :=
  _auth_required (
    token ← _authorization_token;
    r ← send (mkRequest DELETE (gdps_url self "/") [] None
                [application_json; bearer token]);
    when (400 <=? status_code r) (lift (_raise_for_errors r []))).

Definition GDPS_vote (self : GDPS) (vote_type : pyval) : M unit :=
  _auth_required (
    lift (assert_ (isinstance_int vote_type) "vote type must be an integer.");;
    lift (assert_ (truthy vote_type)
            "vote type must be like or dislike (1 or 2).");;
    token ← _authorization_token;
    r ← send (mkRequest POST (gdps_url self "/vote/") [("type", vote_type)]
                None [application_json; bearer token]);
    when (400 <=? status_code r) (lift (_raise_for_errors r []))).

Definition GDPS_unvote (self : GDPS) : M unit :=
  _auth_required (
    token ← _authorization_token;
    r ← send (mkRequest DELETE (gdps_url self "/vote/") [] None
                [application_json; bearer token]);
    when (400 <=? status_code r)
      (lift (_raise_for_errors r []);;
       when (status_code r =? 403)
         (lift (raise_new errors.NotFound (OResp r) (Some "you have not voted."))))).

(** *** Module-level functions *)

Definition get_account (account_id : pyval) : M (option Account) :=
  lift (assert_ (isinstance_int account_id) "account id must be an integer.");;
  lift (assert_ (truthy account_id) "account id must be positive.");;
  r ← send (mkRequest GET
              [Lit "https://gdps.xyz/api/account/"; Fmt account_id; Lit "/"]
              [] None []);
  when (status_code r =? 500)
    (lift (raise_new errors.InternalServerError (OResp r) server_side_error));;
  account ← lift (json_data r);
  if isinstance_dict account
  then a ← lift (Account_init account); mret (Some a)
  else mret None.

Definition me : M (option MyAccount) :=
  _auth_required (
    token ← _authorization_token;
    r ← send (mkRequest GET [Lit "https://gdps.xyz/api/account/me/"] [] None
                [application_json; bearer token]);
    when (400 <=? status_code r) (lift (_raise_for_errors r []));;
    me ← lift (json_data r);
    if isinstance_dict me
    then a ← lift (MyAccount_init me); mret (Some a)
    else mret None).

(** [for i in args: assert isinstance(i, str), m1; assert i, m2] *)
Fixpoint assert_strings (m1 m2 : string) (args : list pyval) : result unit :=
  match args with
  | [] => Ok tt
  | i :: args' =>
      assert_ (isinstance_str i) m1;;
      assert_ (truthy i) m2;;
      assert_strings m1 m2 args'
  end.

Definition authorize (email password : pyval) : M ref :=
  lift (assert_strings "email and password must be strings."
          "email or password can not be empty." [email; password]);;
  r ← send (mkRequest POST [Lit "https://gdps.xyz/api/account/authorize/"] []
              (Some (json_dumps (PDict [("email", email); ("password", password)])))
              [application_json]);
  when (400 <=? status_code r)
    (lift (_raise_for_errors r []);;
     when (status_code r =? 403)
       (lift (raise_new errors.AuthorizationError (OResp r)
                (Some "invalid email or password, or account was not activated."))));;
  token_session ← lift (json_data r);
  s ← lift (Session_new token_session);
  alloc s.

Definition get_gdps (gdps_id : pyval) : M (option GDPS) :=
  lift (assert_ (isinstance_int gdps_id) "GDPS id must be an integer.");;
  lift (assert_ (truthy gdps_id) "GDPS id must be positive.");;
  r ← send (mkRequest GET
              [Lit "https://gdps.xyz/api/gdps/"; Fmt gdps_id; Lit "/"]
              [] None []);
  when (status_code r =? 500)
    (lift (raise_new errors.InternalServerError (OResp r) server_side_error));;
  gdps ← lift (json_data r);
  if isinstance_dict gdps
  then g ← lift (GDPS_init gdps); mret (Some g)
  else mret None.

(** [body.update({key: v})] *)
Fixpoint dict_set (body : dict) (key : string) (v : pyval) : dict :=
  match body with
  | [] => [(key, v)]
  | (k, x) :: body' =>
      if String.eqb k key then (k, v) :: body'
      else (k, x) :: dict_set body' key v
  end.

(** [if u: assert isinstance(u, str), ...; body.update({key: u})] *)
Definition add_url (key : string) (u : pyval) (body : dict) : result dict :=
  if truthy u
  then assert_ (isinstance_str u) "URLs must be strings.";;
       Ok (dict_set body key u)
  else Ok body.

Definition create_gdps (name desc link avatar_url background_url : pyval)
  : M pyval :=
  _auth_required (
    lift (assert_strings "GDPS main informations must be strings."
            "GDPS main informations can not be empty." [name; desc; link]);;
    body ← lift (add_url "avatarUrl" avatar_url
                   [("name", name); ("desc", desc); ("link", link)]);
    body ← lift (add_url "backgroundUrl" background_url body);
    token ← _authorization_token;
    r ← send (mkRequest POST [Lit "https://gdps.xyz/api/gdps/create/"] []
                (Some (json_dumps (PDict body)))
                [application_json; bearer token]);
    when (400 <=? status_code r) (lift (_raise_for_errors r []));;
    lift (json_data r)).

Definition search_for_gdps (query page : pyval) : M (list GDPS) :=
  lift (assert_ (isinstance_str query) "search query must be a string.");;
  lift (assert_ (truthy query) "search query can not be empty.");;
  lift (assert_ (isinstance_int page) "page must be an integer.");;
  lift (assert_ (truthy page) "page integer must be positive.");;
  r ← send (mkRequest GET [Lit "https://gdps.xyz/api/gdps/search"]
              [("urlencoded", query); ("page", page)] None []);
  when (400 <=? status_code r) (lift (_raise_for_errors r []));;
  gdps_pagination ← lift (json_data r);
  lift (items ← py_iter gdps_pagination; result_mapM GDPS_init items).

Definition top : M (list GDPS) :=
  r ← send (mkRequest GET [Lit "https://gdps.xyz/api/gdps/top/"] [] None []);
  when (400 <=? status_code r) (lift (_raise_for_errors r []));;
  top ← lift (json_data r);
  lift (items ← py_iter top; result_mapM GDPS_init items).

End Api.

(** ** Definitions used to state the properties *)

(** The table of section 4.2 of the specification, as status/kind pairs. *)
Definition documented_mapping : list (Z * errors.kind) :=
  [(400, errors.BadRequest); (401, errors.NotInitialized);
   (404, errors.NotFound); (406, errors.NotAcceptable);
   (409, errors.NotAcceptable); (429, errors.OutOfRateLimits);
   (500, errors.InternalServerError)].

(** [m] relates every state it starts from to the state it ends in,
    whether it returns or raises. *)
Definition relates {A} (R : relation World) (m : M A) : Prop :=
  ∀ w, R w (m w).2.

(** The session objects and the active-session variable are untouched. *)
Definition same_sessions : relation World :=
  λ w w', store w' = store w ∧ _authorization w' = _authorization w.

(** Nothing at all changed: in particular no request was sent. *)
Definition untouched : relation World := λ w w', w' = w.

Definition close_request (s : Session) : Request :=
  mkRequest DELETE
    [Lit "https://gdps.xyz/api/session/"; Fmt (Session_id s); Lit "/"]
    [] None [application_json; bearer (Session_token s)].

Definition me_request (token : pyval) : Request :=
  mkRequest GET [Lit "https://gdps.xyz/api/account/me/"] [] None
    [application_json; bearer token].


Definition refresh_request (s : Session) : Request :=
  mkRequest GET [Lit "https://gdps.xyz/api/session/reauthorize/"] []
    (Some (json_dumps (PDict [("refreshToken", Session_refresh_token s)])))
    [application_json].

(** [s] with its access token replaced. *)
Definition with_token (s : Session) (token : pyval) : Session :=
  mkSession (Session_id s) token (Session_refresh_token s)
    (Session_token_expiration s) (Session_refresh_token_expiration s).

(** [m], started in [w], raises [e] and leaves [w] as it was: no session
    changed and no request was sent. *)
Definition fails_locally {A} (e : exn) (m : M A) (w : World) : Prop :=
  m w = (Raise e, w).

Definition sessions_request (s : Session) (page : pyval) : Request :=
  mkRequest GET [Lit "https://gdps.xyz/api/session/all/"] [("page", page)] None
    [bearer (Session_token s)].

Definition gdpslist_request (token page : pyval) : Request :=
  mkRequest GET [Lit "https://gdps.xyz/api/gdps/my"] [("page", page)] None
    [application_json; bearer token].

Definition comment_page_request (g : GDPS) (page : pyval) : Request :=
  mkRequest GET
    [Lit "https://gdps.xyz/api/gdps/"; Fmt (GDPS_id g); Lit "/comment/all/"]
    [("page", page)] None [].

Definition search_request (query page : pyval) : Request :=
  mkRequest GET [Lit "https://gdps.xyz/api/gdps/search"]
    [("urlencoded", query); ("page", page)] None [].

Definition gdps_vote_request (g : GDPS) (token vote_type : pyval) : Request :=
  mkRequest POST
    [Lit "https://gdps.xyz/api/gdps/"; Fmt (GDPS_id g); Lit "/vote/"]
    [("type", vote_type)] None [application_json; bearer token].

Definition comment_vote_request (c : Comment) (token vote_type : pyval)
  : Request :=
  mkRequest POST
    [Lit "https://gdps.xyz/api/gdps/"; Fmt (Comment_gdps_id c);
     Lit "/comment/"; Fmt (Comment_id c); Lit "/vote/"]
    [("type", vote_type)] None [application_json; bearer token].

(** The number of arguments of an update that are false in Python's
    sense (omitted ones are [None]). *)
Definition omitted (args : list pyval) : nat :=
  length (List.filter (λ i, negb (truthy i)) args).

(** An argument as the update operations expect it: left out, or a
    non-empty string. *)
Definition omitted_or_text (i : pyval) : Prop :=
  i = PNone ∨ (isinstance_str i = true ∧ truthy i = true).

(** The body the documentation of the update operations describes: the
    fields whose argument was supplied with a true value. *)
Definition supplied_fields (fields : dict) : dict :=
  List.filter (λ kv, truthy kv.2) fields.

Definition GDPS_update_fields
    (name desc link dashboard_link download_windows download_android
     locale avatar_url background_url : pyval) : dict :=
  [("name", name); ("desc", desc); ("link", link);
   ("dashboardLink", dashboard_link);
   ("downloadWindowsLink", download_windows);
   ("downloadAndroidLink", download_android);
   ("locale", locale); ("avatarUrl", avatar_url);
   ("backgroundUrl", background_url)].

Definition GDPS_update_request (g : GDPS) (token : pyval) (body : dict)
  : Request :=
  mkRequest PUT [Lit "https://gdps.xyz/api/gdps/"; Fmt (GDPS_id g); Lit ""] []
    (Some (json_dumps (PDict body))) [application_json; bearer token].

Definition MyAccount_update_request (token : pyval) (body : dict) : Request :=
  mkRequest PUT [Lit "https://gdps.xyz/api/account/update/"] []
    (Some (json_dumps (PDict body))) [application_json; bearer token].

Definition authorize_request (email password : pyval) : Request :=
  mkRequest POST [Lit "https://gdps.xyz/api/account/authorize/"] []
    (Some (json_dumps (PDict [("email", email); ("password", password)])))
    [application_json].

(** [d.get(key)] on a dictionary *)
Definition field (d : dict) (key : string) : pyval :=
  from_option (λ x, x) PNone (dict_get d key).

(** The session [Session.__init__] builds from a dictionary. *)
Definition Session_of (d : dict) : Session :=
  mkSession (field d "id") (field d "token") (field d "refreshToken")
    (field d "tokenExpiration") (field d "refreshTokenExpiration").

Definition Account_of (d : dict) : Account :=
  mkAccount (field d "id") (field d "accountCreatedOn")
    (field d "accountLastUpdatedOn") (field d "permissionLevel")
    (field d "username") (field d "avatarUrl").

Definition get_account_request (account_id : pyval) : Request :=
  mkRequest GET [Lit "https://gdps.xyz/api/account/"; Fmt account_id; Lit "/"]
    [] None [].

Definition get_gdps_request (gdps_id : pyval) : Request :=
  mkRequest GET [Lit "https://gdps.xyz/api/gdps/"; Fmt gdps_id; Lit "/"]
    [] None [].

Definition get_comment_request (g : GDPS) (comment_id : pyval) : Request :=
  mkRequest GET
    [Lit "https://gdps.xyz/api/gdps/"; Fmt (GDPS_id g); Lit "/comment/";
     Fmt comment_id; Lit "/"] [] None [].

(** The state after [rq] has been sent from [w]. *)
Definition sent (rq : Request) (w : World) : World :=
  mkWorld (store w) (_authorization w) (log w ++ [rq]).

(** ** Scenarios: concrete sessions, states and servers *)

Module scenario.

Definition alice : Session :=
  mkSession (PInt 11) (PStr "tok-a") (PStr "ref-a")
    (PInt 1700000000) (PInt 1800000000).

Definition bob : Session :=
  mkSession (PInt 12) (PStr "tok-b") (PStr "ref-b")
    (PInt 1700000500) (PInt 1800000500).

(** No session was ever created. *)
Definition fresh : World := mkWorld [] None [].

(** One session, published by [init]. *)
Definition alice_active : World := mkWorld [alice] (Some 0%nat) [].

(** Two sessions; the first is the active one. *)
Definition alice_active_bob_idle : World :=
  mkWorld [alice; bob] (Some 0%nat) [].

(** A server that answers every request the same way. *)
Definition always (code : Z) (why : string) (body : option pyval)
  : list Request → Request → option Response :=
  λ _ _, Some (mkResponse code why body).

Definition data (v : pyval) : option pyval := Some (PDict [("data", v)]).

Definition new_token : pyval := PDict [("token", PStr "tok-new")].

Definition galaxium : GDPS :=
  mkGDPS (PInt 1) (PInt 1600000000) (PInt 1600000001) PNone PNone PNone PNone
    (PBool false) (PBool true) (PStr "en") (PStr "Galaxium") (PStr "first").

Definition hello : Comment :=
  mkComment (PInt 5) (PInt 1600000002) (PInt 1600000003) PNone PNone (PInt 1)
    (PStr "Hello!") (PStr "Hello!").

Definition token_pair : pyval :=
  PDict [("id", PInt 13); ("token", PStr "tok-c"); ("refreshToken", PStr "ref-c");
         ("tokenExpiration", PInt 1700000900);
         ("refreshTokenExpiration", PInt 1800000900)].

End scenario.

(** ** xyz.py: the sub-objects and the accessors that build them *)

Record SessionIPs : Type := mkSessionIPs {
  SessionIPs_authorized_ip : pyval;
  SessionIPs_last_relogin_ip : pyval
}.

Definition SessionIPs_init (ips : pyval) : result SessionIPs :=
  authorized_ip ← py_get ips "authorizedIp";
  last_relogin_ip ← py_get ips "lastReloginIp";
  Ok (mkSessionIPs authorized_ip last_relogin_ip).

Record Vote : Type := mkVote {
  Vote_is_voted : pyval;
  Vote_vote_type : pyval
}.

Definition Vote_init (vote : pyval) : result Vote :=
  is_voted ← py_get vote "isVoted";
  vote_type ← py_get vote "voteType";
  Ok (mkVote is_voted vote_type).

Record GDPSImages : Type := mkGDPSImages {
  GDPSImages_avatar_url : pyval;
  GDPSImages_background_url : pyval
}.

Definition GDPSImages_init (urls : pyval) : result GDPSImages :=
  avatar_url ← py_get urls "avatarUrl";
  background_url ← py_get urls "backgroundUrl";
  Ok (mkGDPSImages avatar_url background_url).

Record GDPSLinks : Type := mkGDPSLinks {
  GDPSLinks_download_windows : pyval;
  GDPSLinks_download_android : pyval;
  GDPSLinks_dashboard : pyval;
  GDPSLinks_site : pyval
}.

(** [links.get('download').get('windows')]: the inner [get] is on whatever
    the outer one returned. *)
Definition GDPSLinks_init (links : pyval) : result GDPSLinks :=
  download ← py_get links "download";
  download_windows ← py_get download "windows";
  download ← py_get links "download";
  download_android ← py_get download "android";
  dashboard ← py_get links "dashboard";
  site ← py_get links "site";
  Ok (mkGDPSLinks download_windows download_android dashboard site).

Record GDPSStats : Type := mkGDPSStats {
  GDPSStats__vote : Vote;
  GDPSStats_likes : pyval;
  GDPSStats_dislikes : pyval;
  GDPSStats_reviews : pyval
}.

Definition GDPSStats_init (stats : pyval) : result GDPSStats :=
  v ← py_get stats "Vote";
  vote ← Vote_init v;
  likes ← py_get stats "likes";
  dislikes ← py_get stats "dislikes";
  reviews ← py_get stats "reviews";
  Ok (mkGDPSStats vote likes dislikes reviews).

(** The properties of the data objects: each builds its sub-object anew
    from the raw value kept at decoding time. *)
Definition SessionInfo_ips (self : SessionInfo) : result SessionIPs :=
  SessionIPs_init (SessionInfo__ips self).

Definition MyAccount_email (self : MyAccount) : pyval := MyAccount__email self.

Definition Comment_author (self : Comment) : result Account :=
  Account_init (Comment__author self).

Definition Comment_stats (self : Comment) : result GDPSStats :=
  GDPSStats_init (Comment__stats self).

Definition GDPS_images (self : GDPS) : result GDPSImages :=
  GDPSImages_init (GDPS__images self).

Definition GDPS_owner (self : GDPS) : result Account :=
  Account_init (GDPS__owner self).

Definition GDPS_links (self : GDPS) : result GDPSLinks :=
  GDPSLinks_init (GDPS__links self).

Definition GDPS_stats (self : GDPS) : result GDPSStats :=
  GDPSStats_init (GDPS__stats self).

(** ** Further definitions used to state properties *)

(** [m] sends at most one request and changes nothing else: it ends in the
    state it started from, or in that state with one request added. *)
Definition one_shot {A} (m : M A) : Prop :=
  ∀ w, (m w).2 = w ∨ ∃ rq, (m w).2 = sent rq w.

(** What stays of a session when its token is replaced. *)
Definition same_identity (s s' : Session) : Prop :=
  Session_id s' = Session_id s
  ∧ Session_refresh_token s' = Session_refresh_token s
  ∧ Session_token_expiration s' = Session_token_expiration s
  ∧ Session_refresh_token_expiration s' = Session_refresh_token_expiration s.

(** No session appears or disappears, and each keeps its identity. *)
Definition tokens_only : relation World :=
  λ w w', length (store w') = length (store w)
          ∧ ∀ l s, store w !! l = Some s →
                   ∃ s', store w' !! l = Some s' ∧ same_identity s s'.

(** The status codes [_raise_for_errors] knows. *)
Definition mapped_codes : list Z := [400; 401; 404; 406; 409; 429; 500].

Definition info_request (s : Session) : Request :=
  mkRequest GET
    [Lit "https://gdps.xyz/api/session/"; Fmt (Session_id s); Lit "/"]
    [] None [bearer (Session_token s)].

Definition GDPS_delete_request (g : GDPS) (token : pyval) : Request :=
  mkRequest DELETE [Lit "https://gdps.xyz/api/gdps/"; Fmt (GDPS_id g); Lit "/"]
    [] None [application_json; bearer token].

Definition GDPS_unvote_request (g : GDPS) (token : pyval) : Request :=
  mkRequest DELETE
    [Lit "https://gdps.xyz/api/gdps/"; Fmt (GDPS_id g); Lit "/vote/"]
    [] None [application_json; bearer token].

Definition Comment_delete_request (c : Comment) (token : pyval) : Request :=
  mkRequest DELETE
    [Lit "https://gdps.xyz/api/gdps/"; Fmt (Comment_gdps_id c);
     Lit "/comment/"; Fmt (Comment_id c); Lit "/"]
    [] None [application_json; bearer token].

Definition Comment_unvote_request (c : Comment) (token : pyval) : Request :=
  mkRequest DELETE
    [Lit "https://gdps.xyz/api/gdps/"; Fmt (Comment_gdps_id c);
     Lit "/comment/"; Fmt (Comment_id c); Lit "/vote/"]
    [] None [application_json; bearer token].

Definition MyAccount_delete_request (token : pyval) : Request :=
  mkRequest DELETE [Lit "https://gdps.xyz/api/account/delete/"] []
    None [application_json; bearer token].


Definition top_request : Request :=
  mkRequest GET [Lit "https://gdps.xyz/api/gdps/top/"] [] None [].

(** A non-empty string, the only thing the argument checks let through. *)
Definition text_argument (i : pyval) : Prop :=
  isinstance_str i = true ∧ truthy i = true.

(** The [timestamps] entry of a payload does not stop its decoding: it is
    absent or an object. *)
Definition timestamps_decodable (d : dict) : Prop :=
  match dict_get d "timestamps" with
  | None | Some (PDict _) => True
  | Some _ => False
  end.

(** [d.get('timestamps', {}).get(key)] when that succeeds *)
Definition stamp (d : dict) (key : string) : pyval :=
  match dict_get d "timestamps" with
  | Some (PDict ts) => field ts key
  | _ => PNone
  end.

Definition GDPS_of (d : dict) : GDPS :=
  mkGDPS (field d "id") (stamp d "createdOn") (stamp d "lastUpdatedOn")
    (field d "images") (field d "account") (field d "links") (field d "stats")
    (field d "isPreModerated") (field d "isVerified") (field d "locale")
    (field d "name") (field d "desc").

Definition Comment_of (d : dict) : Comment :=
  mkComment (field d "id") (stamp d "createdOn") (stamp d "lastUpdatedOn")
    (field d "account") (field d "stats") (field d "gdpsId") (field d "text")
    (field d "text").

Definition SessionInfo_of (d : dict) : SessionInfo :=
  mkSessionInfo (field d "id") (stamp d "createdOn")
    (stamp d "lastUpdatedSessionOn") (field d "ips") (field d "refreshCount").

Definition MyAccount_of (d : dict) : MyAccount :=
  mkMyAccount (field d "email") (Account_of d).

Definition succeeds {A} (r : result A) : Prop := ∃ a, r = Ok a.

(** [v] is a JSON object. *)
Definition is_object (v : pyval) : Prop := ∃ d, v = PDict d.

(** [v] is a JSON object whose entry [key] is a JSON object too. *)
Definition has_object (v : pyval) (key : string) : Prop :=
  ∃ d inner, v = PDict d ∧ dict_get d key = Some (PDict inner).


(** The active-session variable is as it was. *)
Definition same_active : relation World :=
  λ w w', _authorization w' = _authorization w.

(** [update_loop]'s second assertion message. *)
Definition left_empty : string := "do not leave argument empty after passing it.".

(** ** Sample payloads *)

Module sample.

Definition owner : pyval :=
  PDict [("id", PInt 3); ("username", PStr "bangakek"); ("permissionLevel", PInt 2)].

Definition links : pyval :=
  PDict [("download", PDict [("windows", PStr "https://w"); ("android", PNone)]);
         ("dashboard", PNone); ("site", PStr "https://gdps.one")].

Definition stats : pyval :=
  PDict [("Vote", PDict [("isVoted", PBool false); ("voteType", PInt (-1))]);
         ("likes", PInt 10); ("dislikes", PInt 1); ("reviews", PInt 4)].

(** A full entry, as the service sends it. *)
Definition entry : dict :=
  [("id", PInt 1); ("name", PStr "Galaxium"); ("desc", PStr "first");
   ("account", owner); ("links", links); ("stats", stats);
   ("images", PDict [("avatarUrl", PNone); ("backgroundUrl", PNone)]);
   ("timestamps", PDict [("createdOn", PInt 1600000000);
                         ("lastUpdatedOn", PInt 1600000001)])].

(** An entry reduced to its id. *)
Definition bare : dict := [("id", PInt 2)].

(** An entry whose [timestamps] is [null]. *)
Definition null_timestamps : dict := [("id", PInt 4); ("timestamps", PNone)].

Definition comment : dict :=
  [("id", PInt 5); ("gdpsId", PInt 1); ("text", PStr "Hello!");
   ("account", owner); ("stats", stats)].

Definition session_info : dict :=
  [("id", PInt 11); ("refreshCount", PInt 0);
   ("ips", PDict [("authorizedIp", PStr "10.0.0.1"); ("lastReloginIp", PNone)])].

End sample.
(** * Properties *)

(** ** The error mapper *)

Lemma in_tuple_false code exc_of : code ∉ exc_of → in_tuple code exc_of = false.
Proof.
  unfold in_tuple. induction exc_of as [|c l IH]; intros Hn; [done|].
  apply not_elem_of_cons in Hn as [Hc Hl]. simpl.
  rewrite (IH Hl), orb_false_r. by apply Z.eqb_neq.
Qed.

Lemma in_tuple_true code exc_of : code ∈ exc_of → in_tuple code exc_of = true.
Proof.
  unfold in_tuple. intros Hin. apply existsb_exists. exists code.
  split; [by apply list_elem_of_In | apply Z.eqb_refl].
Qed.

Lemma table_get_None {A} (t : list (Z * A)) code :
  code ∉ t.*1 → table_get t code = None.
Proof.
  induction t as [|[c a] t IH]; intros Hn; [done|].
  simpl in *. apply not_elem_of_cons in Hn as [Hc Hl].
  destruct (Z.eqb_spec c code); [congruence | auto].
Qed.

(** The mapper never fails while it builds its table: every entry is
    constructed from a response. *)
Lemma raises_keys r : ∃ t, raises r = Ok t ∧ t.*1 = documented_mapping.*1.
Proof. eexists. split; reflexivity. Qed.

Lemma _raise_for_errors_unmapped r exc_of :
  status_code r ∉ documented_mapping.*1 → _raise_for_errors r exc_of = Ok tt.
Proof.
  intros Hn. destruct (raises_keys r) as (t & Ht & Hk).
  unfold _raise_for_errors. rewrite Ht. simpl.
  rewrite table_get_None; [done | by rewrite Hk].
Qed.

Lemma _raise_for_errors_exempted r exc_of :
  status_code r ∈ exc_of → _raise_for_errors r exc_of = Ok tt.
Proof.
  intros Hin. destruct (raises_keys r) as (t & Ht & _).
  unfold _raise_for_errors. rewrite Ht. simpl.
  rewrite (in_tuple_true _ _ Hin). by destruct (table_get t _).
Qed.

Lemma _raise_for_errors_mapped r exc_of code k :
  (code, k) ∈ documented_mapping → status_code r = code → code ∉ exc_of →
  ∃ msg, _raise_for_errors r exc_of = Raise (XYZException k r msg).
Proof.
  intros Hin Hc Hn. unfold _raise_for_errors. simpl.
  rewrite Hc, (in_tuple_false _ _ Hn). simpl.
  unfold documented_mapping in Hin.
  repeat (apply elem_of_cons in Hin as [[= -> ->]|Hin]; [eexists; reflexivity|]).
  by apply elem_of_nil in Hin.
Qed.

Lemma _raise_for_errors_403 r :
  status_code r = 403 → _raise_for_errors r [] = Ok tt.
Proof.
  intros Hc. apply _raise_for_errors_unmapped. rewrite Hc.
  rewrite list_elem_of_In. simpl. lia.
Qed.

Lemma _raise_for_errors_500 r exc_of :
  status_code r = 500 → 500 ∉ exc_of →
  _raise_for_errors r exc_of
  = Raise (XYZException errors.InternalServerError r server_side_error).
Proof.
  intros Hc Hn. unfold _raise_for_errors. simpl.
  by rewrite Hc, (in_tuple_false _ _ Hn).
Qed.

(** C2. For every response and exemption tuple, [_raise_for_errors] raises
    the documented kind, carrying the response, when the status code is one
    of 400, 401, 404, 406, 409, 429, 500 and is not exempted; for every
    status code outside that table it returns normally. *)
Theorem raise_for_errors_mapping (r : Response) (exc_of : list Z) :
  (∀ code k, (code, k) ∈ documented_mapping → status_code r = code →
             code ∉ exc_of →
             ∃ msg, _raise_for_errors r exc_of = Raise (XYZException k r msg))
  ∧ (status_code r ∉ documented_mapping.*1 → _raise_for_errors r exc_of = Ok tt).
Proof.
  split.
  - intros code k. apply _raise_for_errors_mapped.
  - apply _raise_for_errors_unmapped.
Qed.

(** ** Frame reasoning for state transformers *)

Section Relates.
Context (R : relation World) `{!PreOrder R}.

Lemma relates_ret {A} (a : A) : relates R (mret a : M A).
Proof. intros w. simpl. reflexivity. Qed.

Lemma relates_lift {A} (r : result A) : relates R (lift r).
Proof. intros w. simpl. reflexivity. Qed.

Lemma relates_bind {A B} (m : M A) (f : A → M B) :
  relates R m → (∀ a, relates R (f a)) → relates R (m ≫= f).
Proof.
  intros Hm Hf w. unfold mbind, M_mbind, M_bind.
  specialize (Hm w). destruct (m w) as [[a|e] w1]; simpl in *; [|done].
  by etransitivity; [|apply Hf].
Qed.

Lemma relates_when (b : bool) (m : M unit) :
  relates R m → relates R (when b m).
Proof. destruct b; [done|]. intros _. apply relates_ret. Qed.

Lemma relates_try {A} (m : M A) : relates R m → relates R (try_ m).
Proof. intros Hm w. unfold try_. specialize (Hm w). by destruct (m w). Qed.

Lemma relates_get_authorization : relates R get_authorization.
Proof. intros w. simpl. reflexivity. Qed.

Lemma relates_deref self : relates R (deref self).
Proof. intros w. unfold deref. destruct (store w !! self); simpl; reflexivity. Qed.

Lemma relates_if {A} (b : bool) (m1 m2 : M A) :
  relates R m1 → relates R m2 → relates R (if b then m1 else m2).
Proof. by destruct b. Qed.
End Relates.

#[global] Instance same_sessions_preorder : PreOrder same_sessions.
Proof.
  split.
  - by intros w.
  - intros w1 w2 w3 [H1 H2] [H3 H4]. split; congruence.
Qed.

#[global] Instance untouched_preorder : PreOrder untouched.
Proof. split; [by intros w | intros w1 w2 w3 H1 H2; unfold untouched in *; congruence]. Qed.

Create HintDb frame discriminated.
#[global] Hint Resolve relates_ret relates_lift relates_when relates_try
  relates_get_authorization relates_deref relates_if : frame.
#[global] Hint Extern 2 (relates _ (_ ≫= _)) =>
  apply relates_bind; [apply _ | | intros ?] : frame.
#[global] Hint Extern 1 (PreOrder _) => apply _ : frame.

Section Frames.
Variable server : list Request → Request → option Response.

Lemma send_same_sessions rq : relates same_sessions (send server rq).
Proof. intros w. unfold send. by destruct (server _ _). Qed.

Lemma send_log rq w : log (send server rq w).2 = (log w ++ [rq])%list.
Proof. unfold send. by destruct (server _ _). Qed.

Hint Resolve send_same_sessions : frame.

Lemma Session_close_same_sessions self :
  relates same_sessions (Session_close server self).
Proof. unfold Session_close. auto 20 with frame. Qed.

End Frames.

(** ** Sequencing *)

Lemma M_bind_Ok {A B} (m : M A) (f : A → M B) w a w1 :
  m w = (Ok a, w1) → (m ≫= f) w = f a w1.
Proof. intros Hm. unfold mbind, M_mbind, M_bind. by rewrite Hm. Qed.

Lemma M_bind_Raise {A B} (m : M A) (f : A → M B) w e w1 :
  m w = (Raise e, w1) → (m ≫= f) w = (Raise e, w1).
Proof. intros Hm. unfold mbind, M_mbind, M_bind. by rewrite Hm. Qed.

(** When the continuation works on its arguments only, the final state is
    the one its first step left. *)
Lemma M_bind_untouched {A B} (m : M A) (f : A → M B) w :
  (∀ a, relates untouched (f a)) → ((m ≫= f) w).2 = (m w).2.
Proof.
  intros Hf. unfold mbind, M_mbind, M_bind.
  destruct (m w) as [[a|e] w1]; [apply Hf | done].
Qed.

Lemma lift_run {A} (r : result A) w : lift r w = (r, w).
Proof. done. Qed.

(** ** The authorization check *)

Ltac run :=
  unfold mbind, M_mbind, M_bind, mret, M_ret, lift, when, try_,
    get_authorization, set_authorization, deref, write, alloc; simpl.

Lemma _auth_required_pass {A} (req : M A) w :
  is_Some (_authorization w) → _auth_required req w = req w.
Proof. intros [l Hl]. unfold _auth_required. run. by rewrite Hl. Qed.

(** With no active session the guard does not get as far as raising
    [NotInitialized]: the exception is constructed with the message in the
    place of the response, and the constructor fails on it. *)
Lemma _auth_required_fail {A} (req : M A) w :
  _authorization w = None →
  _auth_required req w = (Raise (AttributeError "str" "status_code"), w).
Proof. intros Hn. unfold _auth_required. run. by rewrite Hn. Qed.

Lemma _authorization_token_active w l s :
  _authorization w = Some l → store w !! l = Some s →
  _authorization_token w = (Ok (Session_token s), w).
Proof. intros Ha Hs. unfold _authorization_token. run. by rewrite Ha, Hs. Qed.

Lemma _authorization_token_None w :
  _authorization w = None →
  _authorization_token w = (Raise (AttributeError "NoneType" "token"), w).
Proof. intros Ha. unfold _authorization_token. run. by rewrite Ha. Qed.

(** ** Closing a session *)

Section Close.
Variable server : list Request → Request → option Response.

Lemma deref_run self w s : store w !! self = Some s → deref self w = (Ok s, w).
Proof. intros Hs. unfold deref. by rewrite Hs. Qed.

Lemma Session_close_log self w s :
  store w !! self = Some s →
  log (Session_close server self w).2 = (log w ++ [close_request s])%list.
Proof.
  intros Hs. unfold Session_close.
  rewrite (M_bind_Ok _ _ _ _ _ (deref_run _ _ _ Hs)).
  rewrite M_bind_untouched by auto 20 with frame.
  apply send_log.
Qed.

Lemma me_log w l s :
  _authorization w = Some l → store w !! l = Some s →
  log (me server w).2 = (log w ++ [me_request (Session_token s)])%list.
Proof.
  intros Ha Hs. unfold me. rewrite _auth_required_pass by (by rewrite Ha).
  rewrite (M_bind_Ok _ _ _ _ _ (_authorization_token_active _ _ _ Ha Hs)).
  rewrite M_bind_untouched by auto 20 with frame.
  apply send_log.
Qed.

(** C10. [Session.close] changes neither a field of any [Session] object
    nor [_authorization]; a session that was active is still active after
    it is closed, so the guard of every operation that requires
    authorization still lets the call through, and the call (here [me])
    still goes out to the server with the session's token. *)
Theorem Session_close_keeps_session_active (self : ref) (w : World) :
  let w' := (Session_close server self w).2 in
  store w' = store w
  ∧ _authorization w' = _authorization w
  ∧ (_authorization w = Some self →
     (∀ A (req : M A), _auth_required req w' = req w')
     ∧ (∀ s, store w !! self = Some s →
             log (me server w').2
             = (log w' ++ [me_request (Session_token s)])%list)).
Proof.
  intros w'. destruct (Session_close_same_sessions server self w) as [Hst Hau].
  fold w' in Hst, Hau. split_and!; [done..|].
  intros Ha. split.
  - intros A req. apply _auth_required_pass. rewrite Hau, Ha. by eexists.
  - intros s Hs. apply (me_log _ self); congruence.
Qed.

End Close.

(** ** A session as the subject of a [with] statement *)

Section Scope.
Variable server : list Request → Request → option Response.

Lemma Session__enter__run self w :
  Session__enter__ self w
  = (Ok self, mkWorld (store w) (Some self) (log w)).
Proof. done. Qed.

Lemma Session__exit__normal self w :
  Session__exit__ server self None w
  = (_ ← Session_close server self; mret false) w.
Proof. done. Qed.

(** [__exit__] declines to suppress, and does nothing else, when the
    block raised. *)
Lemma Session__exit__exceptional self e w :
  Session__exit__ server self (Some e) w = (Ok false, w).
Proof. done. Qed.

(** C9. In [with session: block] the block starts with the session
    published as the active one.  When the block ends normally, [close]
    runs once, from the state the block left, and sends its one request;
    when the block raises, [close] does not run: the statement ends in
    the very state the block left, and with the block's exception. *)
Theorem with_Session_scope {A} (self : ref) (block : ref → M A) (w : World) :
  let w1 := mkWorld (store w) (Some self) (log w) in
  Session__enter__ self w = (Ok self, w1)
  ∧ _authorization w1 = Some self
  ∧ (∀ a w2, block self w1 = (Ok a, w2) →
       with_Session server self block w
       = (_ ← Session_close server self; mret (Some a)) w2
       ∧ ∀ s, store w2 !! self = Some s →
              log (with_Session server self block w).2
              = (log w2 ++ [close_request s])%list)
  ∧ (∀ e w2, block self w1 = (Raise e, w2) →
       with_Session server self block w = (Raise e, w2)).
Proof.
  intros w1. split; [done|]. split; [done|].
  assert (Hstep : with_Session server self block w
                  = (outcome ← try_ (block self);
                     match outcome with
                     | Ok a => Session__exit__ server self None;; mret (Some a)
                     | Raise e =>
                         suppress ← Session__exit__ server self (Some e);
                         if negb suppress then lift (Raise e)
                         else (mret None : M (option A))
                     end) w1).
  { unfold with_Session, with_stmt.
    by rewrite (M_bind_Ok _ _ _ _ _ (Session__enter__run self w)). }
  split.
  - intros a w2 Hb.
    assert (Hrun : with_Session server self block w
                   = (_ ← Session_close server self; mret (Some a)) w2).
    { rewrite Hstep. unfold try_.
      rewrite (M_bind_Ok _ _ w1 (Ok a) w2) by (by rewrite Hb).
      unfold mbind, M_mbind, M_bind. rewrite Session__exit__normal.
      unfold mbind, M_mbind, M_bind.
      by destruct (Session_close server self w2) as [[[]|e] w3]. }
    split; [done|]. intros s Hs. rewrite Hrun.
    rewrite M_bind_untouched by auto with frame.
    by apply Session_close_log.
  - intros e w2 Hb. rewrite Hstep. unfold try_.
    rewrite (M_bind_Ok _ _ w1 (Raise e) w2) by (by rewrite Hb).
    by rewrite (M_bind_Ok _ _ _ _ _ (Session__exit__exceptional self e w2)).
Qed.

End Scope.

(** ** Refreshing a session *)

Section Refresh.
Variable server : list Request → Request → option Response.

Lemma send_run rq r w :
  server (log w) rq = Some r →
  send server rq w
  = (Ok r, mkWorld (store w) (_authorization w) (log w ++ [rq])).
Proof. intros Hr. unfold send. by rewrite Hr. Qed.

Lemma set_token_run self token w s :
  store w !! self = Some s →
  set_token self token w
  = (Ok tt, mkWorld (<[self := with_token s token]> (store w))
              (_authorization w) (log w)).
Proof.
  intros Hs. unfold set_token.
  by rewrite (M_bind_Ok _ _ _ _ _ (deref_run _ _ _ Hs)).
Qed.

(** What a refresh does once the server has handed out a token. *)
Lemma Session_refresh_run self w s r session token :
  store w !! self = Some s →
  server (log w) (refresh_request s) = Some r →
  json_data r = Ok session → truthy session = true →
  py_get session "token" = Ok token →
  Session_refresh server self w
  = (Ok tt, mkWorld (<[self := with_token s token]> (store w))
              (match _authorization w with Some _ => Some self | None => None end)
              (log w ++ [refresh_request s])).
Proof.
  intros Hs Hr Hd Ht Hk. unfold Session_refresh.
  rewrite (M_bind_Ok _ _ _ _ _ (deref_run _ _ _ Hs)).
  fold (refresh_request s).
  rewrite (M_bind_Ok _ _ _ _ _ (send_run _ _ _ Hr)).
  rewrite Hd. rewrite (M_bind_Ok _ _ _ session _ (lift_run _ _)).
  rewrite Ht, Hk. rewrite (M_bind_Ok _ _ _ token _ (lift_run _ _)).
  erewrite M_bind_Ok; [|by apply set_token_run].
  unfold mbind, M_mbind, M_bind, get_authorization. simpl.
  by destruct (_authorization w).
Qed.

(** C3 (amended). A refresh that obtains a token replaces the access
    token of the refreshed session and nothing else in it; no other
    session object changes; and the refreshed session becomes the active
    one exactly when some session, this one or another, was active
    before.  With no active session the variable stays empty. *)
Theorem Session_refresh_effect (self : ref) (w : World) (s : Session)
    (r : Response) (session token : pyval) :
  store w !! self = Some s →
  server (log w) (refresh_request s) = Some r →
  json_data r = Ok session → truthy session = true →
  py_get session "token" = Ok token →
  let w' := (Session_refresh server self w).2 in
  (Session_refresh server self w).1 = Ok tt
  ∧ store w' !! self = Some (with_token s token)
  ∧ (∀ l, l ≠ self → store w' !! l = store w !! l)
  ∧ (_authorization w' = Some self ↔ is_Some (_authorization w))
  ∧ (_authorization w = None → _authorization w' = None).
Proof.
  intros Hs Hr Hd Ht Hk w'. subst w'.
  rewrite (Session_refresh_run _ _ _ _ _ _ Hs Hr Hd Ht Hk). simpl.
  split_and!.
  - done.
  - apply list_lookup_insert_eq. by eapply lookup_lt_Some.
  - intros l Hl. by apply list_lookup_insert_ne.
  - destruct (_authorization w) as [l|]; simpl.
    + split; [by eexists | done].
    + split; [done | by intros [? ?]].
  - by intros ->.
Qed.

End Refresh.

(** C3, as stated, fails: refreshing an idle session while another session
    is the active one takes the active-session variable away from it. *)
Lemma refresh_of_idle_session_takes_over :
  let server := scenario.always 200 "OK" (scenario.data scenario.new_token) in
  let w := scenario.alice_active_bob_idle in
  _authorization w = Some 0%nat
  ∧ (Session_refresh server 1 w).1 = Ok tt
  ∧ _authorization (Session_refresh server 1 w).2 = Some 1%nat
  ∧ _authorization (Session_refresh server 1 w).2 ≠ _authorization w.
Proof. by vm_compute. Qed.

Lemma Session_refresh_effect_witness :
  let server := scenario.always 200 "OK" (scenario.data scenario.new_token) in
  let w := scenario.alice_active_bob_idle in
  store (Session_refresh server 1 w).2 !! 1%nat
  = Some (with_token scenario.bob (PStr "tok-new")).
Proof.
  intros server w.
  refine (proj1 (proj2 (Session_refresh_effect server 1 w scenario.bob
            (mkResponse 200 "OK" (scenario.data scenario.new_token))
            scenario.new_token (PStr "tok-new") _ _ _ _ _)));
    reflexivity.
Defined.

(** ** Calls made without an active session *)

Section Unauthenticated.
Variable server : list Request → Request → option Response.

(** C1 (what the code does). With no active session every decorated
    operation stops at the guard without sending anything, but the
    exception that comes out is the [AttributeError] of the failed
    construction of [NotInitialized], not [NotInitialized];
    [Comment.update], which is not decorated, gets as far as reading
    [_authorization.token] and fails there. *)
Theorem unauthenticated_calls_fail_with_AttributeError (w : World) :
  _authorization w = None →
  let guard_error := AttributeError "str" "status_code" in
  fails_locally guard_error (me server) w
  ∧ (∀ name desc link avatar_url background_url,
       fails_locally guard_error
         (create_gdps server name desc link avatar_url background_url) w)
  ∧ (∀ page, fails_locally guard_error (MyAccount_gdpslist server page) w)
  ∧ (∀ email password avatar_url username,
       fails_locally guard_error
         (MyAccount_update server email password avatar_url username) w)
  ∧ fails_locally guard_error (MyAccount_delete server) w
  ∧ (∀ g text, fails_locally guard_error (GDPS_create_comment server g text) w)
  ∧ (∀ g a1 a2 a3 a4 a5 a6 a7 a8 a9,
       fails_locally guard_error (GDPS_update server g a1 a2 a3 a4 a5 a6 a7 a8 a9) w)
  ∧ (∀ g, fails_locally guard_error (GDPS_delete server g) w)
  ∧ (∀ g vote_type, fails_locally guard_error (GDPS_vote server g vote_type) w)
  ∧ (∀ g, fails_locally guard_error (GDPS_unvote server g) w)
  ∧ (∀ c, fails_locally guard_error (Comment_delete server c) w)
  ∧ (∀ c vote_type, fails_locally guard_error (Comment_vote server c vote_type) w)
  ∧ (∀ c, fails_locally guard_error (Comment_unvote server c) w)
  ∧ (∀ c text, isinstance_str text = true → truthy text = true →
       fails_locally (AttributeError "NoneType" "token")
         (Comment_update server c text) w).
Proof.
  intros Hn guard_error. unfold fails_locally.
  split_and!; intros; try by apply _auth_required_fail.
  unfold Comment_update.
  match goal with H1 : isinstance_str _ = true, H2 : truthy _ = true |- _ =>
    rewrite H1, H2 end.
  do 2 (erewrite M_bind_Ok; [|reflexivity]).
  erewrite M_bind_Raise; [done | by apply _authorization_token_None].
Qed.

End Unauthenticated.

Lemma unauthenticated_calls_fail_with_AttributeError_witness :
  me (scenario.always 200 "OK" None) scenario.fresh
  = (Raise (AttributeError "str" "status_code"), scenario.fresh).
Proof.
  exact (proj1 (unauthenticated_calls_fail_with_AttributeError
                  (scenario.always 200 "OK" None) scenario.fresh eq_refl)).
Defined.

(** ** Argument checks of the paginated operations and of the votes *)

Lemma truthy_PInt n : n ≠ 0 → truthy (PInt n) = true.
Proof. intros Hn. simpl. by apply negb_true_iff, Z.eqb_neq. Qed.

Ltac pass_checks :=
  repeat (erewrite M_bind_Ok; [|first [reflexivity | by eapply deref_run
            | by eapply _authorization_token_active]]).

Ltac then_sent :=
  rewrite M_bind_untouched by auto 20 with frame; apply send_log.

Section Checks.
Variable server : list Request → Request → option Response.

(** The assertion on [page] does reject zero, before anything is sent. *)
Lemma page_zero_fails_locally (w : World) :
  let e := AssertionError "page integer must be positive." in
  (∀ self, fails_locally e (Session_sessions server self (PInt 0)) w)
  ∧ (∀ g, fails_locally e (GDPS_get_comment_page server g (PInt 0)) w)
  ∧ (∀ q, q ≠ "" → fails_locally e (search_for_gdps server (PStr q) (PInt 0)) w)
  ∧ (is_Some (_authorization w) →
     fails_locally e (MyAccount_gdpslist server (PInt 0)) w).
Proof.
  intros e. unfold fails_locally. split_and!.
  - done.
  - done.
  - intros q Hq. unfold search_for_gdps.
    assert (truthy (PStr q) = true) as ->
      by (simpl; apply negb_true_iff; by apply String.eqb_neq).
    done.
  - intros Ha. unfold MyAccount_gdpslist. by rewrite _auth_required_pass.
Qed.

(** C4 (what the code does). The assertion on [page] tests that it is
    not zero; a negative page passes it, and the request goes out with
    that page number. *)
Theorem negative_page_is_requested (w : World) (n : Z) :
  n < 0 →
  (∀ self s, store w !! self = Some s →
     log (Session_sessions server self (PInt n) w).2
     = (log w ++ [sessions_request s (PInt n)])%list)
  ∧ (∀ g, log (GDPS_get_comment_page server g (PInt n) w).2
          = (log w ++ [comment_page_request g (PInt n)])%list)
  ∧ (∀ q, q ≠ "" →
       log (search_for_gdps server (PStr q) (PInt n) w).2
       = (log w ++ [search_request (PStr q) (PInt n)])%list)
  ∧ (∀ l s, _authorization w = Some l → store w !! l = Some s →
       log (MyAccount_gdpslist server (PInt n) w).2
       = (log w ++ [gdpslist_request (Session_token s) (PInt n)])%list).
Proof.
  intros Hn.
  assert (Ht : truthy (PInt n) = true) by (apply truthy_PInt; lia).
  split_and!.
  - intros self s Hs. unfold Session_sessions. rewrite Ht.
    pass_checks. fold (sessions_request s (PInt n)). then_sent.
  - intros g. unfold GDPS_get_comment_page. rewrite Ht.
    pass_checks. then_sent.
  - intros q Hq. unfold search_for_gdps. rewrite Ht.
    assert (truthy (PStr q) = true) as ->
      by (simpl; apply negb_true_iff; by apply String.eqb_neq).
    pass_checks. then_sent.
  - intros l s Ha Hs. unfold MyAccount_gdpslist.
    rewrite _auth_required_pass by (by rewrite Ha). rewrite Ht.
    pass_checks. fold (gdpslist_request (Session_token s) (PInt n)). then_sent.
Qed.

(** The assertion on [vote_type] does reject zero. *)
Lemma vote_zero_fails_locally (w : World) :
  is_Some (_authorization w) →
  let e := AssertionError "vote type must be like or dislike (1 or 2)." in
  (∀ g, fails_locally e (GDPS_vote server g (PInt 0)) w)
  ∧ (∀ c, fails_locally e (Comment_vote server c (PInt 0)) w).
Proof.
  intros Ha e. unfold fails_locally, GDPS_vote, Comment_vote.
  split; intros; by rewrite _auth_required_pass.
Qed.

(** C5 (what the code does). The assertion on [vote_type] tests that it
    is not zero; any other integer, 3 and -1 included, passes it and is
    sent as the [type] parameter. *)
Theorem nonzero_vote_type_is_sent (w : World) (n : Z) (l : ref) (s : Session) :
  n ≠ 0 → _authorization w = Some l → store w !! l = Some s →
  (∀ g, log (GDPS_vote server g (PInt n) w).2
        = (log w ++ [gdps_vote_request g (Session_token s) (PInt n)])%list)
  ∧ (∀ c, log (Comment_vote server c (PInt n) w).2
          = (log w ++ [comment_vote_request c (Session_token s) (PInt n)])%list).
Proof.
  intros Hn Ha Hs. pose proof (truthy_PInt n Hn) as Ht.
  split; intros x; unfold GDPS_vote, Comment_vote;
    rewrite _auth_required_pass by (by rewrite Ha); rewrite Ht;
    pass_checks; then_sent.
Qed.

End Checks.

(** ** The bodies of the update requests *)

Lemma dict_del_head (body : dict) k v :
  dict_del ((k, v) :: body) k = Ok body.
Proof. simpl. by rewrite String.eqb_refl. Qed.

Lemma del_next_islice_None (body : dict) kv :
  del_next_islice (kv :: body) PNone = Ok body.
Proof. destruct kv as [k v]. unfold del_next_islice. simpl. apply dict_del_head. Qed.

Lemma omitted_cons_None args : omitted (PNone :: args) = S (omitted args).
Proof. done. Qed.

Lemma omitted_cons_text i args :
  truthy i = true → omitted (i :: args) = omitted args.
Proof. intros Ht. unfold omitted. simpl. by rewrite Ht. Qed.

(** Each omitted argument removes the field that is first in the body at
    that moment, whichever argument it was: after the loop the body has lost
    as many leading fields as there were omitted arguments. *)
Lemma update_loop_drop msg args : ∀ body : dict,
  Forall omitted_or_text args →
  (omitted args ≤ length body)%nat →
  update_loop msg args body = Ok (drop (omitted args) body).
Proof.
  induction args as [|i args IH]; intros body Hargs Hlen.
  - by rewrite drop_0.
  - apply Forall_cons in Hargs as [[->|[Hs Ht]] Hargs].
    + rewrite omitted_cons_None in *.
      destruct body as [|kv body]; [simpl in Hlen; lia|].
      cbn [update_loop truthy]. rewrite del_next_islice_None.
      change (update_loop msg args body = Ok (drop (omitted args) body)).
      apply IH; [done | simpl in Hlen; lia].
    + rewrite omitted_cons_text in * by done.
      cbn [update_loop]. rewrite Ht, Hs.
      change (update_loop msg args body = Ok (drop (omitted args) body)).
      by apply IH.
Qed.

(** When more arguments are omitted than the body has fields, the loop
    runs out of fields to delete. *)
Lemma update_loop_exhausted msg args : ∀ body : dict,
  Forall omitted_or_text args →
  (length body < omitted args)%nat →
  update_loop msg args body = Raise StopIteration.
Proof.
  induction args as [|i args IH]; intros body Hargs Hlen.
  - unfold omitted in Hlen. simpl in Hlen. lia.
  - apply Forall_cons in Hargs as [[->|[Hs Ht]] Hargs].
    + rewrite omitted_cons_None in *.
      destruct body as [|kv body]; [done|].
      cbn [update_loop truthy]. rewrite del_next_islice_None.
      change (update_loop msg args body = Raise StopIteration).
      apply IH; [done | simpl in Hlen; lia].
    + rewrite omitted_cons_text in * by done.
      cbn [update_loop]. rewrite Ht, Hs.
      change (update_loop msg args body = Raise StopIteration).
      by apply IH.
Qed.

Section Updates.
Variable server : list Request → Request → option Response.

(** C6 (what the code does). With every argument either omitted or a
    non-empty string, the body [GDPS.update] sends is the full list of
    fields without its first [k] entries, [k] being the number of omitted
    arguments: the fields that remain are the last ones, not the supplied
    ones.  [MyAccount.update] does the same with its three fields (its
    [avatar_url] is never among them), and raises [StopIteration] when
    all four arguments are omitted. *)
Theorem update_sends_trailing_fields (w : World) (l : ref) (s : Session) :
  _authorization w = Some l → store w !! l = Some s →
  (∀ g name desc link dashboard_link download_windows download_android
     locale avatar_url background_url,
     let args := [name; desc; link; dashboard_link; download_windows;
                  download_android; locale; avatar_url; background_url] in
     Forall omitted_or_text args →
     log (GDPS_update server g name desc link dashboard_link download_windows
            download_android locale avatar_url background_url w).2
     = (log w ++ [GDPS_update_request g (Session_token s)
                    (drop (omitted args)
                       (GDPS_update_fields name desc link dashboard_link
                          download_windows download_android locale
                          avatar_url background_url))])%list)
  ∧ (∀ email password avatar_url username,
     let args := [email; password; avatar_url; username] in
     let fields := [("email", email); ("password", password);
                    ("username", username)] in
     Forall omitted_or_text args →
     ((omitted args ≤ 3)%nat →
      log (MyAccount_update server email password avatar_url username w).2
      = (log w ++ [MyAccount_update_request (Session_token s)
                     (drop (omitted args) fields)])%list)
     ∧ (omitted args = 4%nat →
        fails_locally StopIteration
          (MyAccount_update server email password avatar_url username) w)).
Proof.
  intros Ha Hs. split.
  - intros g name desc link dashboard_link download_windows download_android
      locale avatar_url background_url args Hargs.
    unfold GDPS_update. rewrite _auth_required_pass by (by rewrite Ha).
    fold args. rewrite update_loop_drop; [|done|].
    + pass_checks. then_sent.
    + exact (List.filter_length_le _ args).
  - intros email password avatar_url username args fields Hargs. split.
    + intros Hk. unfold MyAccount_update.
      rewrite _auth_required_pass by (by rewrite Ha).
      fold args fields. rewrite update_loop_drop by done.
      pass_checks. then_sent.
    + intros Hk. unfold fails_locally, MyAccount_update.
      rewrite _auth_required_pass by (by rewrite Ha).
      fold args fields. rewrite update_loop_exhausted; [done..|].
      rewrite Hk. simpl. lia.
Qed.

End Updates.

(** ** Signing in *)

Lemma Session_new_dict (d : dict) : Session_new (PDict d) = Ok (Session_of d).
Proof. done. Qed.

Lemma Account_init_dict (d : dict) : Account_init (PDict d) = Ok (Account_of d).
Proof. done. Qed.

Lemma truthy_PStr s : s ≠ "" → truthy (PStr s) = true.
Proof. intros Hs. simpl. by apply negb_true_iff, String.eqb_neq. Qed.

Section Authorize.
Variable server : list Request → Request → option Response.

Lemma authorize_sends (w : World) (e p : string) (r : Response) :
  e ≠ "" → p ≠ "" →
  server (log w) (authorize_request (PStr e) (PStr p)) = Some r →
  ∀ B (f : Response → M B),
    (lift (assert_strings "email and password must be strings."
             "email or password can not be empty." [PStr e; PStr p]);;
     send server (authorize_request (PStr e) (PStr p)) ≫= f) w
    = f r (sent (authorize_request (PStr e) (PStr p)) w).
Proof.
  intros He Hp Hr B f. cbn [assert_strings isinstance_str].
  rewrite (truthy_PStr e He), (truthy_PStr p Hp).
  erewrite M_bind_Ok; [|reflexivity].
  erewrite M_bind_Ok; [|by apply send_run]. done.
Qed.

(** C7 (amended). Called with non-empty strings, [authorize] raises
    [AuthorizationError] on status 403 and [InternalServerError] on
    status 500, each carrying the response; on a 2xx response whose JSON
    body is an object with an object in its [data] field it returns a new
    [Session] built from that object, and does not publish it. *)
Theorem authorize_outcomes (w : World) (e p : string) (r : Response) :
  e ≠ "" → p ≠ "" →
  server (log w) (authorize_request (PStr e) (PStr p)) = Some r →
  let w1 := sent (authorize_request (PStr e) (PStr p)) w in
  (status_code r = 403 →
   authorize server (PStr e) (PStr p) w
   = (Raise (XYZException errors.AuthorizationError r
               (Some "invalid email or password, or account was not activated.")),
      w1))
  ∧ (status_code r = 500 →
     authorize server (PStr e) (PStr p) w
     = (Raise (XYZException errors.InternalServerError r server_side_error), w1))
  ∧ (200 ≤ status_code r < 300 → ∀ d, json_data r = Ok (PDict d) →
     authorize server (PStr e) (PStr p) w
     = (Ok (length (store w)),
        mkWorld (store w ++ [Session_of d]) (_authorization w) (log w1))).
Proof.
  intros He Hp Hr w1. unfold authorize.
  fold (authorize_request (PStr e) (PStr p)).
  rewrite (authorize_sends w e p r He Hp Hr). fold w1.
  split_and!.
  - intros Hc. erewrite M_bind_Raise; [done|]. rewrite Hc. simpl.
    rewrite (_raise_for_errors_403 r Hc).
    by erewrite M_bind_Ok; [|reflexivity].
  - intros Hc. erewrite M_bind_Raise; [done|]. rewrite Hc. simpl.
    rewrite (_raise_for_errors_500 r [] Hc) by apply not_elem_of_nil.
    by erewrite M_bind_Raise; [|reflexivity].
  - intros Hc d Hd.
    assert ((400 <=? status_code r) = false) as -> by lia.
    erewrite M_bind_Ok; [|reflexivity].
    rewrite Hd. erewrite M_bind_Ok; [|reflexivity].
    rewrite Session_new_dict. by erewrite M_bind_Ok; [|reflexivity].
Qed.

End Authorize.

(** C7, as stated, fails twice over: on a 5xx status other than 500 nothing
    is raised for the status (here a 502 reply with a token pair in it yields
    a session), and a 2xx reply without an object in [data] yields an
    [AttributeError] instead of a session. *)
Lemma authorize_502_returns_session :
  let bad_gateway := scenario.always 502 "Bad Gateway" (scenario.data scenario.token_pair) in
  let empty_ok := scenario.always 200 "OK" (Some (PDict [])) in
  (authorize bad_gateway (PStr "a@gdps.xyz") (PStr "secret") scenario.fresh).1
  = Ok 0%nat
  ∧ (authorize empty_ok (PStr "a@gdps.xyz") (PStr "secret") scenario.fresh).1
    = Raise (AttributeError "NoneType" "get").
Proof. by vm_compute. Qed.

(** ** Fetching by id *)

Lemma timestamp_dict d key :
  timestamps_decodable d → timestamp (PDict d) key = Ok (stamp d key).
Proof.
  unfold timestamps_decodable, timestamp, stamp. simpl.
  by destruct (dict_get d "timestamps") as [[]|].
Qed.

Lemma decode_with_timestamps (d : dict) :
  timestamps_decodable d →
  GDPS_init (PDict d) = Ok (GDPS_of d)
  ∧ Comment_init (PDict d) = Ok (Comment_of d)
  ∧ SessionInfo_init (PDict d) = Ok (SessionInfo_of d).
Proof.
  intros Hts. unfold GDPS_init, Comment_init, SessionInfo_init.
  cbn [py_get py_get_default mbind result_mbind result_bind].
  rewrite !timestamp_dict by done. done.
Qed.

Section Fetch.
Variable server : list Request → Request → option Response.

(** The part the three fetch operations share, once the reply [r] is in:
    status 500 raises; otherwise the [data] field decides. *)
Lemma fetch_tail {T} (decode : pyval → result T) (r : Response) (w1 : World) :
  let tail : M (option T) :=
    when (status_code r =? 500)
      (lift (raise_new errors.InternalServerError (OResp r) server_side_error));;
    x ← lift (json_data r);
    if isinstance_dict x then c ← lift (decode x); mret (Some c) else mret None in
  (status_code r = 500 →
   tail w1 = (Raise (XYZException errors.InternalServerError r server_side_error), w1))
  ∧ (status_code r ≠ 500 → ∀ v, json_data r = Ok v →
     tail w1 = (match v with
                | PDict d => c ← decode (PDict d); Ok (Some c)
                | _ => Ok None
                end, w1)).
Proof.
  intros tail. subst tail. split.
  - intros Hc. rewrite Hc. by erewrite M_bind_Raise; [|reflexivity].
  - intros Hc v Hv. apply Z.eqb_neq in Hc. rewrite Hc, Hv.
    erewrite M_bind_Ok; [|reflexivity].
    erewrite M_bind_Ok; [|reflexivity].
    destruct v; try done. simpl.
    unfold mbind at 1, M_mbind, M_bind, lift. by destruct (decode _).
Qed.

(** The three fetch operations up to the decoding of the [data] field,
    whose outcome is left as the constructor gives it. *)
Lemma fetch_by_id_run (w : World) (n : Z) (r : Response) :
  0 < n →
  let outcome {T} (decode : pyval → result T) (v : pyval) : result (option T) :=
    match v with
    | PDict d => c ← decode (PDict d); Ok (Some c)
    | _ => Ok None
    end in
  let failure := XYZException errors.InternalServerError r server_side_error in
  (server (log w) (get_account_request (PInt n)) = Some r →
   let w1 := sent (get_account_request (PInt n)) w in
   (status_code r = 500 → get_account server (PInt n) w = (Raise failure, w1))
   ∧ (status_code r ≠ 500 → ∀ v, json_data r = Ok v →
      get_account server (PInt n) w = (outcome Account_init v, w1)))
  ∧ (server (log w) (get_gdps_request (PInt n)) = Some r →
     let w1 := sent (get_gdps_request (PInt n)) w in
     (status_code r = 500 → get_gdps server (PInt n) w = (Raise failure, w1))
     ∧ (status_code r ≠ 500 → ∀ v, json_data r = Ok v →
        get_gdps server (PInt n) w = (outcome GDPS_init v, w1)))
  ∧ (∀ g, server (log w) (get_comment_request g (PInt n)) = Some r →
     let w1 := sent (get_comment_request g (PInt n)) w in
     (status_code r = 500 →
      GDPS_get_comment server g (PInt n) w = (Raise failure, w1))
     ∧ (status_code r ≠ 500 → ∀ v, json_data r = Ok v →
        GDPS_get_comment server g (PInt n) w = (outcome Comment_init v, w1))).
Proof.
  intros Hn outcome failure.
  assert (Ht : truthy (PInt n) = true) by (apply truthy_PInt; lia).
  split_and!; [intros Hr w1 | intros Hr w1 | intros g Hr w1];
    unfold get_account, get_gdps, GDPS_get_comment; rewrite Ht;
    (erewrite M_bind_Ok; [|reflexivity]);
    (erewrite M_bind_Ok; [|reflexivity]);
    (erewrite M_bind_Ok; [|by apply send_run]);
    apply fetch_tail.
Qed.

(** C8 (amended). For a positive id, each fetch operation sends its one
    request and then: raises [InternalServerError] when the status is 500;
    for every other status, returns the decoded object when the [data]
    field holds an object (for a [GDPS] and a [Comment]: an object whose
    [timestamps] entry is absent or an object), and returns [None] when the
    [data] field is absent or holds anything that is not an object.  The
    status code itself, 500 apart, never decides the outcome. *)
Theorem fetch_by_id_outcomes (w : World) (n : Z) (r : Response) :
  0 < n →
  let failure := XYZException errors.InternalServerError r server_side_error in
  (server (log w) (get_account_request (PInt n)) = Some r →
   let w1 := sent (get_account_request (PInt n)) w in
   (status_code r = 500 → get_account server (PInt n) w = (Raise failure, w1))
   ∧ (status_code r ≠ 500 →
      (∀ d, json_data r = Ok (PDict d) →
            get_account server (PInt n) w = (Ok (Some (Account_of d)), w1))
      ∧ (∀ v, json_data r = Ok v → isinstance_dict v = false →
              get_account server (PInt n) w = (Ok None, w1))))
  ∧ (server (log w) (get_gdps_request (PInt n)) = Some r →
     let w1 := sent (get_gdps_request (PInt n)) w in
     (status_code r = 500 → get_gdps server (PInt n) w = (Raise failure, w1))
     ∧ (status_code r ≠ 500 →
        (∀ d, json_data r = Ok (PDict d) → timestamps_decodable d →
              get_gdps server (PInt n) w = (Ok (Some (GDPS_of d)), w1))
        ∧ (∀ v, json_data r = Ok v → isinstance_dict v = false →
                get_gdps server (PInt n) w = (Ok None, w1))))
  ∧ (∀ g, server (log w) (get_comment_request g (PInt n)) = Some r →
     let w1 := sent (get_comment_request g (PInt n)) w in
     (status_code r = 500 →
      GDPS_get_comment server g (PInt n) w = (Raise failure, w1))
     ∧ (status_code r ≠ 500 →
        (∀ d, json_data r = Ok (PDict d) → timestamps_decodable d →
              GDPS_get_comment server g (PInt n) w
              = (Ok (Some (Comment_of d)), w1))
        ∧ (∀ v, json_data r = Ok v → isinstance_dict v = false →
                GDPS_get_comment server g (PInt n) w = (Ok None, w1)))).
Proof.
  intros Hn failure.
  destruct (fetch_by_id_run w n r Hn) as (Ha & Hg & Hc).
  assert (Hnone : ∀ T (decode : pyval → result T) v,
            isinstance_dict v = false →
            match v with
            | PDict d => c ← decode (PDict d); Ok (Some c)
            | _ => Ok None
            end = Ok None).
  { intros T decode v Hv. by destruct v. }
  split_and!.
  - intros Hr w1. destruct (Ha Hr) as [H500 Hrun]. split; [done|].
    intros Hs. split.
    + intros d Hd. rewrite (Hrun Hs _ Hd). by rewrite Account_init_dict.
    + intros v Hd Hv. rewrite (Hrun Hs _ Hd). by rewrite Hnone.
  - intros Hr w1. destruct (Hg Hr) as [H500 Hrun]. split; [done|].
    intros Hs. split.
    + intros d Hd Hts. rewrite (Hrun Hs _ Hd).
      by destruct (decode_with_timestamps d Hts) as (-> & _ & _).
    + intros v Hd Hv. rewrite (Hrun Hs _ Hd). by rewrite Hnone.
  - intros g Hr w1. destruct (Hc g Hr) as [H500 Hrun]. split; [done|].
    intros Hs. split.
    + intros d Hd Hts. rewrite (Hrun Hs _ Hd).
      by destruct (decode_with_timestamps d Hts) as (_ & -> & _).
    + intros v Hd Hv. rewrite (Hrun Hs _ Hd). by rewrite Hnone.
Qed.

End Fetch.

(** C8, as stated, fails twice over: a reply that reports another failure
    (here 429, too many requests) and has no object in [data] gives the same
    [None] as the reply for a missing object, no exception surfaces; and a
    reply that does carry an object in [data] is not always returned
    decoded, a [null] under [timestamps] makes the constructor raise. *)
Lemma rate_limited_fetch_returns_None :
  let body := Some (PDict [("message", PStr "slow down")]) in
  let rate_limited := scenario.always 429 "Too Many Requests" body in
  let missing := scenario.always 404 "Not Found" (Some (PDict [])) in
  let no_stamps :=
    scenario.always 200 "OK" (scenario.data (PDict sample.null_timestamps)) in
  (get_account rate_limited (PInt 7) scenario.fresh).1 = Ok None
  ∧ (get_account missing (PInt 7) scenario.fresh).1 = Ok None
  ∧ (get_gdps rate_limited (PInt 7) scenario.fresh).1 = Ok None
  ∧ (GDPS_get_comment rate_limited scenario.galaxium (PInt 7) scenario.fresh).1
    = Ok None
  ∧ (get_gdps no_stamps (PInt 4) scenario.fresh).1
    = Raise (AttributeError "NoneType" "get")
  ∧ (GDPS_get_comment no_stamps scenario.galaxium (PInt 4) scenario.fresh).1
    = Raise (AttributeError "NoneType" "get").
Proof. by vm_compute. Qed.

(** ** Instances of the theorems above on concrete runs *)

Lemma raise_for_errors_mapping_witness :
  let not_found := mkResponse 404 "Not Found" None in
  let bad_gateway := mkResponse 502 "Bad Gateway" None in
  (∃ msg, _raise_for_errors not_found [401]
          = Raise (XYZException errors.NotFound not_found msg))
  ∧ _raise_for_errors bad_gateway [] = Ok tt.
Proof.
  intros not_found bad_gateway. split.
  - apply (proj1 (raise_for_errors_mapping not_found [401]) 404 errors.NotFound).
    + apply list_elem_of_In. simpl. tauto.
    + reflexivity.
    + rewrite list_elem_of_In. simpl. lia.
  - apply (proj2 (raise_for_errors_mapping bad_gateway [])).
    rewrite list_elem_of_In. simpl. lia.
Defined.

Lemma Session_close_keeps_session_active_witness :
  let server := scenario.always 200 "OK" None in
  let w' := (Session_close server 0 scenario.alice_active).2 in
  _authorization w' = Some 0%nat
  ∧ log (me server w').2
    = [close_request scenario.alice; me_request (PStr "tok-a")].
Proof.
  intros server w'.
  destruct (Session_close_keeps_session_active server 0 scenario.alice_active)
    as (_ & Hau & Hme).
  split; [exact Hau|].
  exact (proj2 (Hme eq_refl) scenario.alice eq_refl).
Defined.

Lemma with_Session_scope_witness :
  let server := scenario.always 200 "OK" None in
  with_Session server 0 (λ _, lift (Raise TypeError) : M unit) scenario.alice_active
  = (Raise TypeError, scenario.alice_active)
  ∧ log (with_Session server 0 (λ _, mret tt : M unit) scenario.alice_active).2
    = [close_request scenario.alice].
Proof.
  intros server. split.
  - exact (proj2 (proj2 (proj2 (with_Session_scope server 0
             (λ _, lift (Raise TypeError) : M unit) scenario.alice_active)))
             TypeError scenario.alice_active eq_refl).
  - exact (proj2 (proj1 (proj2 (proj2 (with_Session_scope server 0
             (λ _, mret tt : M unit) scenario.alice_active)))
             tt scenario.alice_active eq_refl) scenario.alice eq_refl).
Defined.

Lemma negative_page_is_requested_witness :
  log (search_for_gdps (scenario.always 200 "OK" (scenario.data (PList [])))
         (PStr "galaxium") (PInt (-1)) scenario.fresh).2
  = [search_request (PStr "galaxium") (PInt (-1))].
Proof.
  refine (proj1 (proj2 (proj2
            (negative_page_is_requested _ scenario.fresh (-1) _))) "galaxium" _);
    [lia | discriminate].
Defined.

Lemma nonzero_vote_type_is_sent_witness :
  log (GDPS_vote (scenario.always 200 "OK" None) scenario.galaxium (PInt 3)
         scenario.alice_active).2
  = [gdps_vote_request scenario.galaxium (PStr "tok-a") (PInt 3)]
  ∧ log (Comment_vote (scenario.always 200 "OK" None) scenario.hello (PInt (-1))
           scenario.alice_active).2
    = [comment_vote_request scenario.hello (PStr "tok-a") (PInt (-1))].
Proof.
  split.
  - refine (proj1 (nonzero_vote_type_is_sent _ scenario.alice_active 3 0
                     scenario.alice _ _ _) scenario.galaxium);
      [lia | reflexivity | reflexivity].
  - refine (proj2 (nonzero_vote_type_is_sent _ scenario.alice_active (-1) 0
                     scenario.alice _ _ _) scenario.hello);
      [lia | reflexivity | reflexivity].
Defined.

(** C6 at a concrete call: [GDPS.update(desc='better')] sends
    [{"backgroundUrl": null}], where the documented body is
    [{"desc": "better"}]; [MyAccount.update(username='bob')] sends [{}]. *)
Lemma update_sends_trailing_fields_witness :
  let server := scenario.always 200 "OK" None in
  let w := scenario.alice_active in
  log (GDPS_update server scenario.galaxium PNone (PStr "better") PNone PNone
         PNone PNone PNone PNone PNone w).2
  = [GDPS_update_request scenario.galaxium (PStr "tok-a")
       [("backgroundUrl", PNone)]]
  ∧ supplied_fields (GDPS_update_fields PNone (PStr "better") PNone PNone
                       PNone PNone PNone PNone PNone)
    = [("desc", PStr "better")]
  ∧ log (MyAccount_update server PNone PNone PNone (PStr "bob") w).2
    = [MyAccount_update_request (PStr "tok-a") []].
Proof.
  intros server w.
  destruct (update_sends_trailing_fields server w 0 scenario.alice eq_refl eq_refl)
    as [Hg Hm].
  split_and!.
  - apply (Hg scenario.galaxium PNone (PStr "better")).
    repeat constructor; by (left + (right; split)).
  - reflexivity.
  - apply (Hm PNone PNone PNone (PStr "bob")).
    + repeat constructor; by (left + (right; split)).
    + unfold omitted. simpl. lia.
Defined.

Lemma authorize_outcomes_witness :
  let denied := mkResponse 403 "Forbidden" None in
  authorize (scenario.always 403 "Forbidden" None) (PStr "a@gdps.xyz")
    (PStr "secret") scenario.fresh
  = (Raise (XYZException errors.AuthorizationError denied
              (Some "invalid email or password, or account was not activated.")),
     sent (authorize_request (PStr "a@gdps.xyz") (PStr "secret")) scenario.fresh).
Proof.
  intros denied.
  refine (proj1 (authorize_outcomes (scenario.always 403 "Forbidden" None)
                   scenario.fresh "a@gdps.xyz" "secret" denied _ _ _) _);
    (discriminate || reflexivity).
Defined.

Lemma fetch_by_id_outcomes_witness :
  let account := [("id", PInt 7); ("username", PStr "bangakek")] in
  (get_account (scenario.always 200 "OK" (scenario.data (PDict account)))
     (PInt 7) scenario.fresh).1
  = Ok (Some (mkAccount (PInt 7) PNone PNone PNone (PStr "bangakek") PNone))
  ∧ (get_gdps (scenario.always 200 "OK" (scenario.data (PDict sample.bare)))
       (PInt 2) scenario.fresh).1
    = Ok (Some (GDPS_of sample.bare))
  ∧ (get_gdps (scenario.always 404 "Not Found" (Some (PDict [])))
       (PInt 2) scenario.fresh).1
    = Ok None.
Proof.
  intros account. split_and!.
  - pose proof (fetch_by_id_outcomes
                  (scenario.always 200 "OK" (scenario.data (PDict account)))
                  scenario.fresh 7
                  (mkResponse 200 "OK" (scenario.data (PDict account)))
                  ltac:(lia)) as (Ha & _).
    destruct (Ha eq_refl) as [_ Hok].
    destruct (Hok ltac:(simpl; lia)) as [Hsome _].
    rewrite (Hsome account eq_refl). reflexivity.
  - pose proof (fetch_by_id_outcomes
                  (scenario.always 200 "OK" (scenario.data (PDict sample.bare)))
                  scenario.fresh 2
                  (mkResponse 200 "OK" (scenario.data (PDict sample.bare)))
                  ltac:(lia)) as (_ & Hg & _).
    destruct (Hg eq_refl) as [_ Hok].
    destruct (Hok ltac:(simpl; lia)) as [Hsome _].
    rewrite (Hsome sample.bare eq_refl I). reflexivity.
  - pose proof (fetch_by_id_outcomes
                  (scenario.always 404 "Not Found" (Some (PDict [])))
                  scenario.fresh 2
                  (mkResponse 404 "Not Found" (Some (PDict [])))
                  ltac:(lia)) as (_ & Hg & _).
    destruct (Hg eq_refl) as [_ Hok].
    destruct (Hok ltac:(simpl; lia)) as [_ Hnone].
    rewrite (Hnone PNone eq_refl eq_refl). reflexivity.
Defined.

(** * Further properties of the client *)

(** ** The error mapper, with its exemptions *)

Lemma documented_codes : documented_mapping.*1 = mapped_codes.
Proof. done. Qed.

Lemma mapped_code_kind code :
  code ∈ mapped_codes → ∃ k, (code, k) ∈ documented_mapping.
Proof.
  rewrite <- documented_codes. intros Hin.
  apply list_elem_of_fmap in Hin as ([c k] & -> & Hin). by exists k.
Qed.

Lemma raise_for_errors_silent (r : Response) (exc_of : list Z) :
  status_code r ∉ mapped_codes ∨ status_code r ∈ exc_of →
  _raise_for_errors r exc_of = Ok tt.
Proof.
  intros [Hm|He].
  - apply _raise_for_errors_unmapped. by rewrite documented_codes.
  - by apply _raise_for_errors_exempted.
Qed.

Lemma raise_for_errors_loud (r : Response) (exc_of : list Z) :
  status_code r ∈ mapped_codes → status_code r ∉ exc_of →
  ∃ k msg, _raise_for_errors r exc_of = Raise (XYZException k r msg).
Proof.
  intros Hm He. destruct (mapped_code_kind _ Hm) as [k Hk]. exists k.
  by apply (_raise_for_errors_mapped r exc_of _ k Hk).
Qed.

Lemma raise_for_errors_silent_nil (r : Response) :
  _raise_for_errors r [] = Ok tt ↔ status_code r ∉ mapped_codes.
Proof.
  split.
  - intros Hok Hm.
    destruct (raise_for_errors_loud r [] Hm) as (k & msg & Hr);
      [apply not_elem_of_nil | congruence].
  - intros Hm. apply raise_for_errors_silent. by left.
Qed.

(** X1. [_raise_for_errors] returns normally exactly when the status code
    is outside its table or is one of the exempted codes. *)
Theorem raise_for_errors_silent_iff (r : Response) (exc_of : list Z) :
  _raise_for_errors r exc_of = Ok tt
  ↔ status_code r ∉ mapped_codes ∨ status_code r ∈ exc_of.
Proof.
  split.
  - intros Hok.
    destruct (decide (status_code r ∈ mapped_codes)) as [Hm|Hm]; [|by left].
    destruct (decide (status_code r ∈ exc_of)) as [He|He]; [by right|].
    destruct (raise_for_errors_loud r exc_of Hm He) as (k & msg & Hr).
    congruence.
  - apply raise_for_errors_silent.
Qed.

(** ** Decoding payloads *)

Lemma timestamp_not_object d key :
  ¬ timestamps_decodable d →
  ∃ t, t ≠ "dict" ∧ timestamp (PDict d) key = Raise (AttributeError t "get").
Proof.
  unfold timestamps_decodable, timestamp. simpl.
  destruct (dict_get d "timestamps") as [[]|]; simpl; intros Hn;
    try (by destruct Hn); (eexists; split; [|reflexivity]; done).
Qed.

Lemma decode_without_timestamps (d : dict) :
  ¬ timestamps_decodable d →
  ∃ t, t ≠ "dict"
       ∧ GDPS_init (PDict d) = Raise (AttributeError t "get")
       ∧ Comment_init (PDict d) = Raise (AttributeError t "get")
       ∧ SessionInfo_init (PDict d) = Raise (AttributeError t "get").
Proof.
  intros Hts.
  destruct (timestamp_not_object d "createdOn" Hts) as (t & Ht & Hc).
  exists t. unfold GDPS_init, Comment_init, SessionInfo_init.
  cbn [py_get py_get_default mbind result_mbind result_bind].
  rewrite Hc. done.
Qed.

#[local] Instance timestamps_decodable_dec d : Decision (timestamps_decodable d).
Proof.
  unfold timestamps_decodable.
  destruct (dict_get d "timestamps") as [[]|]; apply _.
Defined.

(** X2. A payload decodes into a [GDPS], a [Comment] or a [SessionInfo]
    exactly when its [timestamps] entry is absent or an object; every other
    entry may be missing and then reads as [None].  A [timestamps] entry of
    another kind (a [null], say) makes the constructor raise
    [AttributeError]. *)
Theorem decoding_needs_object_timestamps (d : dict) :
  (timestamps_decodable d →
   GDPS_init (PDict d) = Ok (GDPS_of d)
   ∧ Comment_init (PDict d) = Ok (Comment_of d)
   ∧ SessionInfo_init (PDict d) = Ok (SessionInfo_of d))
  ∧ (¬ timestamps_decodable d →
     ∃ t, t ≠ "dict"
          ∧ GDPS_init (PDict d) = Raise (AttributeError t "get")
          ∧ Comment_init (PDict d) = Raise (AttributeError t "get")
          ∧ SessionInfo_init (PDict d) = Raise (AttributeError t "get")).
Proof.
  split; [apply decode_with_timestamps | apply decode_without_timestamps].
Qed.

(** ** Accessors of the decoded objects *)

Lemma Account_init_succeeds v : succeeds (Account_init v) ↔ is_object v.
Proof.
  split.
  - intros [a Ha]. destruct v; try done. by eexists.
  - intros [d ->]. by eexists.
Qed.

Lemma GDPSImages_init_succeeds v : succeeds (GDPSImages_init v) ↔ is_object v.
Proof.
  split.
  - intros [a Ha]. destruct v; try done. by eexists.
  - intros [d ->]. by eexists.
Qed.

Lemma Vote_init_succeeds v : succeeds (Vote_init v) ↔ is_object v.
Proof.
  split.
  - intros [a Ha]. destruct v; try done. by eexists.
  - intros [d ->]. by eexists.
Qed.

Lemma GDPSLinks_init_succeeds v :
  succeeds (GDPSLinks_init v) ↔ has_object v "download".
Proof.
  split.
  - intros [a Ha]. destruct v as [| | | | |d]; try done.
    unfold GDPSLinks_init in Ha. simpl in Ha. unfold has_object.
    destruct (dict_get d "download") as [[]|] eqn:Hd; try done. by eexists _, _.
  - intros (d & inner & -> & Hd). unfold GDPSLinks_init. simpl.
    rewrite Hd. by eexists.
Qed.

Lemma GDPSStats_init_succeeds v :
  succeeds (GDPSStats_init v) ↔ has_object v "Vote".
Proof.
  split.
  - intros [a Ha]. destruct v as [| | | | |d]; try done.
    unfold GDPSStats_init in Ha. simpl in Ha. unfold has_object.
    destruct (dict_get d "Vote") as [[]|] eqn:Hd; try done. by eexists _, _.
  - intros (d & inner & -> & Hd). unfold GDPSStats_init. simpl.
    rewrite Hd. by eexists.
Qed.

(** X3. Decoding keeps the nested values raw, and each accessor of a [GDPS]
    decodes its own when it is called: [owner] and [images] work exactly
    when the payload held an object under [account], respectively [images];
    [links] needs an object under [links] with an object under [download] in
    it; [stats] needs an object under [stats] with an object under [Vote].
    So a [GDPS] that decoded without error can still raise on access. *)
Theorem GDPS_accessors_need_their_objects (d : dict) (g : GDPS) :
  GDPS_init (PDict d) = Ok g →
  (succeeds (GDPS_owner g) ↔ is_object (field d "account"))
  ∧ (succeeds (GDPS_images g) ↔ is_object (field d "images"))
  ∧ (succeeds (GDPS_links g) ↔ has_object (field d "links") "download")
  ∧ (succeeds (GDPS_stats g) ↔ has_object (field d "stats") "Vote").
Proof.
  intros Hg.
  destruct (decide (timestamps_decodable d)) as [Hts|Hts].
  - destruct (decode_with_timestamps d Hts) as [Hok _].
    rewrite Hok in Hg. injection Hg as <-.
    unfold GDPS_owner, GDPS_images, GDPS_links, GDPS_stats. simpl.
    split_and!; [apply Account_init_succeeds | apply GDPSImages_init_succeeds
                | apply GDPSLinks_init_succeeds | apply GDPSStats_init_succeeds].
  - destruct (decode_without_timestamps d Hts) as (t & _ & Hr & _).
    congruence.
Qed.

Lemma SessionIPs_init_succeeds v : succeeds (SessionIPs_init v) ↔ is_object v.
Proof.
  split.
  - intros [a Ha]. destruct v; try done. by eexists.
  - intros [d ->]. by eexists.
Qed.

(** X20. The same holds for the other decoded objects: [Comment.author]
    works exactly when the payload held an object under [account],
    [Comment.stats] when it held an object under [stats] with an object
    under [Vote], and [SessionInfo.ips] when it held an object under
    [ips]. *)
Theorem Comment_and_SessionInfo_accessors (d : dict) :
  (∀ c, Comment_init (PDict d) = Ok c →
        (succeeds (Comment_author c) ↔ is_object (field d "account"))
        ∧ (succeeds (Comment_stats c) ↔ has_object (field d "stats") "Vote"))
  ∧ (∀ i, SessionInfo_init (PDict d) = Ok i →
          succeeds (SessionInfo_ips i) ↔ is_object (field d "ips")).
Proof.
  destruct (decide (timestamps_decodable d)) as [Hts|Hts].
  - destruct (decode_with_timestamps d Hts) as (_ & Hc & Hi). split.
    + intros c Hok. rewrite Hc in Hok. injection Hok as <-.
      unfold Comment_author, Comment_stats. simpl.
      split; [apply Account_init_succeeds | apply GDPSStats_init_succeeds].
    + intros i Hok. rewrite Hi in Hok. injection Hok as <-.
      unfold SessionInfo_ips. simpl. apply SessionIPs_init_succeeds.
  - destruct (decode_without_timestamps d Hts) as (t & _ & _ & Hc & Hi).
    split; intros ? Hok; congruence.
Qed.

(** ** One request at most, and no other effect *)

Lemma _authorization_token_untouched : relates untouched _authorization_token.
Proof.
  unfold _authorization_token.
  apply relates_bind; [apply _ | auto with frame |].
  intros [l|]; auto 10 with frame.
Qed.

#[global] Hint Resolve _authorization_token_untouched : frame.

Section OneShot.
Variable server : list Request → Request → option Response.

Lemma one_shot_local {A} (m : M A) : relates untouched m → one_shot m.
Proof. intros Hm w. left. apply Hm. Qed.

Lemma one_shot_after_local {A B} (m : M A) (f : A → M B) :
  relates untouched m → (∀ a, one_shot (f a)) → one_shot (m ≫= f).
Proof.
  intros Hm Hf w. unfold mbind, M_mbind, M_bind.
  specialize (Hm w). unfold untouched in Hm.
  destruct (m w) as [[a|e] w1]; simpl in Hm; subst w1.
  - apply Hf.
  - by left.
Qed.

Lemma one_shot_send {B} (rq : Request) (f : Response → M B) :
  (∀ r, relates untouched (f r)) → one_shot (send server rq ≫= f).
Proof.
  intros Hf w. right. exists rq.
  rewrite M_bind_untouched by done. unfold send, sent.
  by destruct (server _ _).
Qed.

Lemma one_shot_auth_required {A} (req : M A) :
  one_shot req → one_shot (_auth_required req).
Proof.
  intros Hreq w. destruct (_authorization w) as [l|] eqn:Ha.
  - rewrite _auth_required_pass by (by rewrite Ha). apply Hreq.
  - left. by rewrite _auth_required_fail.
Qed.

Ltac one_shot :=
  repeat first
    [ apply one_shot_auth_required
    | apply one_shot_send; intros; solve [auto 20 with frame]
    | apply one_shot_after_local; [solve [auto 20 with frame] | intros] ].

(** X4. Except for [authorize] and the session's own [init] and [refresh],
    every operation of the client either stops before it has sent anything,
    leaving the state exactly as it was, or sends exactly one request; it
    never sends a second one (there is no retry), and it never touches a
    session object or the active-session variable.  In particular
    [Session.close] and [MyAccount.delete] leave the closed session
    published. *)
Theorem operations_send_at_most_one_request :
  (∀ self, one_shot (Session_info server self))
  ∧ (∀ self page, one_shot (Session_sessions server self page))
  ∧ (∀ self, one_shot (Session_close server self))
  ∧ (∀ page, one_shot (MyAccount_gdpslist server page))
  ∧ (∀ email password avatar_url username,
       one_shot (MyAccount_update server email password avatar_url username))
  ∧ one_shot (MyAccount_delete server)
  ∧ (∀ c text, one_shot (Comment_update server c text))
  ∧ (∀ c, one_shot (Comment_delete server c))
  ∧ (∀ c vote_type, one_shot (Comment_vote server c vote_type))
  ∧ (∀ c, one_shot (Comment_unvote server c))
  ∧ (∀ g comment_id, one_shot (GDPS_get_comment server g comment_id))
  ∧ (∀ g text, one_shot (GDPS_create_comment server g text))
  ∧ (∀ g page, one_shot (GDPS_get_comment_page server g page))
  ∧ (∀ g a1 a2 a3 a4 a5 a6 a7 a8 a9,
       one_shot (GDPS_update server g a1 a2 a3 a4 a5 a6 a7 a8 a9))
  ∧ (∀ g, one_shot (GDPS_delete server g))
  ∧ (∀ g vote_type, one_shot (GDPS_vote server g vote_type))
  ∧ (∀ g, one_shot (GDPS_unvote server g))
  ∧ (∀ account_id, one_shot (get_account server account_id))
  ∧ one_shot (me server)
  ∧ (∀ gdps_id, one_shot (get_gdps server gdps_id))
  ∧ (∀ name desc link avatar_url background_url,
       one_shot (create_gdps server name desc link avatar_url background_url))
  ∧ (∀ query page, one_shot (search_for_gdps server query page))
  ∧ one_shot (top server).
Proof.
  split_and!; intros;
    unfold Session_info, Session_sessions, Session_close, MyAccount_gdpslist,
      MyAccount_update, MyAccount_delete, Comment_update, Comment_delete,
      Comment_vote, Comment_unvote, GDPS_get_comment, GDPS_create_comment,
      GDPS_get_comment_page, GDPS_update, GDPS_delete, GDPS_vote, GDPS_unvote,
      get_account, me, get_gdps, create_gdps, search_for_gdps, top;
    one_shot.
Qed.

End OneShot.

(** ** How replies are turned into outcomes *)

Lemma mapped_codes_are_errors code : code ∈ mapped_codes → 400 ≤ code.
Proof. rewrite list_elem_of_In. simpl. lia. Qed.

(** [if r.status_code >= 400: _raise_for_errors(r)]: the test on 400
    changes nothing, every code of the table being above it. *)
Lemma check_status_run r w :
  when (400 <=? status_code r) (lift (_raise_for_errors r [])) w
  = (_raise_for_errors r [], w).
Proof.
  destruct (400 <=? status_code r) eqn:Hc; [done|].
  simpl. unfold mret, M_ret. f_equal. symmetry.
  apply raise_for_errors_silent. left. intros Hin.
  apply mapped_codes_are_errors in Hin. lia.
Qed.

Section Outcomes.
Variable server : list Request → Request → option Response.

(** An authorized call up to the arrival of the reply. *)
Lemma authorized_request_run {A} (rq_of : pyval → Request)
    (f : Response → M A) w l s r :
  _authorization w = Some l → store w !! l = Some s →
  server (log w) (rq_of (Session_token s)) = Some r →
  _auth_required (token ← _authorization_token;
                  r ← send server (rq_of token); f r) w
  = f r (sent (rq_of (Session_token s)) w).
Proof.
  intros Ha Hs Hr. rewrite _auth_required_pass by (by rewrite Ha).
  rewrite (M_bind_Ok _ _ _ _ _ (_authorization_token_active _ _ _ Ha Hs)).
  by rewrite (M_bind_Ok _ _ _ _ _ (send_run _ _ _ _ Hr)).
Qed.

Lemma GDPS_delete_run g w l s r :
  _authorization w = Some l → store w !! l = Some s →
  server (log w) (GDPS_delete_request g (Session_token s)) = Some r →
  GDPS_delete server g w
  = (_raise_for_errors r [], sent (GDPS_delete_request g (Session_token s)) w).
Proof.
  intros Ha Hs Hr. unfold GDPS_delete.
  rewrite (authorized_request_run (GDPS_delete_request g) _ _ _ _ _ Ha Hs Hr).
  apply check_status_run.
Qed.

Lemma Comment_delete_run c w l s r :
  _authorization w = Some l → store w !! l = Some s →
  server (log w) (Comment_delete_request c (Session_token s)) = Some r →
  Comment_delete server c w
  = (_raise_for_errors r [], sent (Comment_delete_request c (Session_token s)) w).
Proof.
  intros Ha Hs Hr. unfold Comment_delete.
  rewrite (authorized_request_run (Comment_delete_request c) _ _ _ _ _ Ha Hs Hr).
  apply check_status_run.
Qed.

Lemma GDPS_vote_run g n w l s r :
  n ≠ 0 → _authorization w = Some l → store w !! l = Some s →
  server (log w) (gdps_vote_request g (Session_token s) (PInt n)) = Some r →
  GDPS_vote server g (PInt n) w
  = (_raise_for_errors r [],
     sent (gdps_vote_request g (Session_token s) (PInt n)) w).
Proof.
  intros Hn Ha Hs Hr. unfold GDPS_vote.
  rewrite _auth_required_pass by (by rewrite Ha).
  rewrite (truthy_PInt n Hn). pass_checks.
  rewrite (M_bind_Ok _ _ _ _ _ (send_run _ _ _ _ Hr)).
  apply check_status_run.
Qed.

Lemma Comment_vote_run c n w l s r :
  n ≠ 0 → _authorization w = Some l → store w !! l = Some s →
  server (log w) (comment_vote_request c (Session_token s) (PInt n)) = Some r →
  Comment_vote server c (PInt n) w
  = (_raise_for_errors r [],
     sent (comment_vote_request c (Session_token s) (PInt n)) w).
Proof.
  intros Hn Ha Hs Hr. unfold Comment_vote.
  rewrite _auth_required_pass by (by rewrite Ha).
  rewrite (truthy_PInt n Hn). pass_checks.
  rewrite (M_bind_Ok _ _ _ _ _ (send_run _ _ _ _ Hr)).
  apply check_status_run.
Qed.

(** X5. With a session active, the operations that return nothing
    ([GDPS.delete], [Comment.delete], and the two [vote]s with a non-zero
    vote type) report success for every reply whose status code is not one
    of the seven of the table: a 403, a 502 or a 503 reply ends the call
    normally, exactly like a 200 reply. *)
Theorem silent_operations_succeed_iff_unmapped (w : World) (l : ref)
    (s : Session) (r : Response) :
  _authorization w = Some l → store w !! l = Some s →
  (∀ rq, server (log w) rq = Some r) →
  (∀ g, (GDPS_delete server g w).1 = Ok tt ↔ status_code r ∉ mapped_codes)
  ∧ (∀ c, (Comment_delete server c w).1 = Ok tt ↔ status_code r ∉ mapped_codes)
  ∧ (∀ g n, n ≠ 0 →
       (GDPS_vote server g (PInt n) w).1 = Ok tt ↔ status_code r ∉ mapped_codes)
  ∧ (∀ c n, n ≠ 0 →
       (Comment_vote server c (PInt n) w).1 = Ok tt
       ↔ status_code r ∉ mapped_codes).
Proof.
  intros Ha Hs Hr.
  assert (Hiff : _raise_for_errors r [] = Ok tt ↔ status_code r ∉ mapped_codes).
  { rewrite raise_for_errors_silent_nil. done. }
  split_and!; intros.
  - by rewrite (GDPS_delete_run _ _ _ _ _ Ha Hs (Hr _)).
  - by rewrite (Comment_delete_run _ _ _ _ _ Ha Hs (Hr _)).
  - by rewrite (GDPS_vote_run _ _ _ _ _ _ ltac:(done) Ha Hs (Hr _)).
  - by rewrite (Comment_vote_run _ _ _ _ _ _ ltac:(done) Ha Hs (Hr _)).
Qed.

End Outcomes.

(** ** Replies with a meaning of their own at the call site *)

Lemma raise_for_errors_not_exempted r exc_of :
  status_code r ∉ exc_of → _raise_for_errors r exc_of = _raise_for_errors r [].
Proof.
  intros He. unfold _raise_for_errors.
  destruct (raises_keys r) as (t & -> & _). simpl.
  by rewrite (in_tuple_false _ _ He).
Qed.

(** The check of the status followed by the call site's own test of one
    code, which the mapper was told to skip or does not know. *)
Lemma check_status_then_run code k msg exc_of r w :
  400 ≤ code →
  (status_code r = code → _raise_for_errors r exc_of = Ok tt) →
  (status_code r ≠ code → status_code r ∉ exc_of) →
  when (400 <=? status_code r)
    (lift (_raise_for_errors r exc_of);;
     when (status_code r =? code) (lift (raise_new k (OResp r) msg))) w
  = (if status_code r =? code then Raise (XYZException k r msg)
     else _raise_for_errors r [], w).
Proof.
  intros Hcode Hsame Hother.
  destruct (Z.eqb_spec (status_code r) code) as [Heq|Hne].
  - assert ((400 <=? status_code r) = true) as -> by lia.
    simpl. rewrite (M_bind_Ok _ _ _ tt w) by (by rewrite lift_run, Hsame).
    done.
  - rewrite (raise_for_errors_not_exempted r exc_of (Hother Hne)).
    destruct (400 <=? status_code r) eqn:Hc; simpl.
    + unfold mbind, M_mbind, M_bind, lift.
      by destruct (_raise_for_errors r []) as [[]|e].
    + unfold mret, M_ret. f_equal. symmetry.
      apply raise_for_errors_silent. left. intros Hin.
      apply mapped_codes_are_errors in Hin. lia.
Qed.

Lemma forbidden_unmapped r : status_code r = 403 → _raise_for_errors r [] = Ok tt.
Proof. apply _raise_for_errors_403. Qed.

Section CallSites.
Variable server : list Request → Request → option Response.

Lemma GDPS_unvote_run g w l s r :
  _authorization w = Some l → store w !! l = Some s →
  server (log w) (GDPS_unvote_request g (Session_token s)) = Some r →
  GDPS_unvote server g w
  = (if status_code r =? 403
     then Raise (XYZException errors.NotFound r (Some "you have not voted."))
     else _raise_for_errors r [],
     sent (GDPS_unvote_request g (Session_token s)) w).
Proof.
  intros Ha Hs Hr. unfold GDPS_unvote.
  rewrite (authorized_request_run server (GDPS_unvote_request g) _ _ _ _ _ Ha Hs Hr).
  apply check_status_then_run; [lia | apply forbidden_unmapped |].
  intros _. apply not_elem_of_nil.
Qed.

Lemma Comment_unvote_run c w l s r :
  _authorization w = Some l → store w !! l = Some s →
  server (log w) (Comment_unvote_request c (Session_token s)) = Some r →
  Comment_unvote server c w
  = (if status_code r =? 403
     then Raise (XYZException errors.NotFound r (Some "you have not voted."))
     else _raise_for_errors r [],
     sent (Comment_unvote_request c (Session_token s)) w).
Proof.
  intros Ha Hs Hr. unfold Comment_unvote.
  rewrite (authorized_request_run server (Comment_unvote_request c) _ _ _ _ _ Ha Hs Hr).
  apply check_status_then_run; [lia | apply forbidden_unmapped |].
  intros _. apply not_elem_of_nil.
Qed.

Lemma MyAccount_delete_run w l s r :
  _authorization w = Some l → store w !! l = Some s →
  server (log w) (MyAccount_delete_request (Session_token s)) = Some r →
  MyAccount_delete server w
  = (if status_code r =? 403
     then Raise (XYZException errors.AccountDeletionError r
                   (Some "delete all your GDPSs before account deletion."))
     else _raise_for_errors r [],
     sent (MyAccount_delete_request (Session_token s)) w).
Proof.
  intros Ha Hs Hr. unfold MyAccount_delete.
  rewrite (authorized_request_run server MyAccount_delete_request _ _ _ _ _ Ha Hs Hr).
  apply check_status_then_run; [lia | apply forbidden_unmapped |].
  intros _. apply not_elem_of_nil.
Qed.

Lemma own_code_outcome code (e : exn) r :
  code ∉ mapped_codes →
  (if status_code r =? code then Raise e else _raise_for_errors r []) = Ok tt
  ↔ status_code r ∉ code :: mapped_codes.
Proof.
  intros Hcode. rewrite not_elem_of_cons.
  destruct (Z.eqb_spec (status_code r) code) as [Heq|Hne].
  - split; [done | by intros [? _]].
  - rewrite raise_for_errors_silent_nil. tauto.
Qed.

(** X6. A 403 reply has a meaning only where the call site gives it one:
    to [GDPS.unvote] and [Comment.unvote] it means "you have not voted"
    ([NotFound]), to [MyAccount.delete] it means that the account still owns
    entries ([AccountDeletionError]).  These three succeed exactly when the
    status code is neither 403 nor one of the table. *)
Theorem forbidden_reply_at_call_sites (w : World) (l : ref) (s : Session)
    (r : Response) :
  _authorization w = Some l → store w !! l = Some s →
  (∀ rq, server (log w) rq = Some r) →
  (status_code r = 403 →
   (∀ g, (GDPS_unvote server g w).1
         = Raise (XYZException errors.NotFound r (Some "you have not voted.")))
   ∧ (∀ c, (Comment_unvote server c w).1
           = Raise (XYZException errors.NotFound r (Some "you have not voted.")))
   ∧ (MyAccount_delete server w).1
     = Raise (XYZException errors.AccountDeletionError r
                (Some "delete all your GDPSs before account deletion.")))
  ∧ (∀ g, (GDPS_unvote server g w).1 = Ok tt
          ↔ status_code r ∉ 403 :: mapped_codes)
  ∧ (∀ c, (Comment_unvote server c w).1 = Ok tt
          ↔ status_code r ∉ 403 :: mapped_codes)
  ∧ ((MyAccount_delete server w).1 = Ok tt
     ↔ status_code r ∉ 403 :: mapped_codes).
Proof.
  intros Ha Hs Hr.
  assert (H403 : 403 ∉ mapped_codes) by (rewrite list_elem_of_In; simpl; lia).
  split_and!.
  - intros Hc. split_and!; intros;
      rewrite ?(GDPS_unvote_run _ _ _ _ _ Ha Hs (Hr _)),
        ?(Comment_unvote_run _ _ _ _ _ Ha Hs (Hr _)),
        ?(MyAccount_delete_run _ _ _ _ Ha Hs (Hr _)); simpl;
      by rewrite Hc.
  - intros g. rewrite (GDPS_unvote_run _ _ _ _ _ Ha Hs (Hr _)).
    by apply own_code_outcome.
  - intros c. rewrite (Comment_unvote_run _ _ _ _ _ Ha Hs (Hr _)).
    by apply own_code_outcome.
  - rewrite (MyAccount_delete_run _ _ _ _ Ha Hs (Hr _)).
    by apply own_code_outcome.
Qed.

Lemma Session_close_run self w s r :
  store w !! self = Some s →
  server (log w) (close_request s) = Some r →
  Session_close server self w
  = (if status_code r =? 401
     then Raise (XYZException errors.InvalidToken r (Some "invalid session token."))
     else _raise_for_errors r [],
     sent (close_request s) w).
Proof.
  intros Hs Hr. unfold Session_close.
  rewrite (M_bind_Ok _ _ _ _ _ (deref_run _ _ _ Hs)).
  fold (close_request s).
  rewrite (M_bind_Ok _ _ _ _ _ (send_run _ _ _ _ Hr)).
  apply check_status_then_run; [lia | |].
  - intros Hc. apply raise_for_errors_silent. right. rewrite Hc.
    apply list_elem_of_here.
  - intros Hc. rewrite list_elem_of_In. simpl. lia.
Qed.

(** X7. [Session.close] needs no active session and never reads the body
    of the reply: its outcome is decided by the status code alone.  A 401
    reply raises [InvalidToken] (not the [NotInitialized] of the table), and
    the call returns normally exactly when the status code is none of the
    seven of the table. *)
Theorem Session_close_outcome (self : ref) (w : World) (s : Session)
    (r : Response) :
  store w !! self = Some s →
  server (log w) (close_request s) = Some r →
  (status_code r = 401 →
   (Session_close server self w).1
   = Raise (XYZException errors.InvalidToken r (Some "invalid session token.")))
  ∧ ((Session_close server self w).1 = Ok tt ↔ status_code r ∉ mapped_codes).
Proof.
  intros Hs Hr. rewrite (Session_close_run _ _ _ _ Hs Hr). simpl. split.
  - by intros ->.
  - destruct (Z.eqb_spec (status_code r) 401) as [Heq|Hne].
    + split; [done|]. intros Hn. destruct Hn. rewrite Heq.
      rewrite list_elem_of_In. simpl. tauto.
    + apply raise_for_errors_silent_nil.
Qed.

End CallSites.

(** ** The session's own requests *)

#[global] Instance tokens_only_preorder : PreOrder tokens_only.
Proof.
  split.
  - intros w. split; [done|]. intros l s Hs. exists s. by repeat split.
  - intros w1 w2 w3 [Hl12 H12] [Hl23 H23]. split; [congruence|].
    intros l s Hs. destruct (H12 l s Hs) as (s2 & Hs2 & I2).
    destruct (H23 l s2 Hs2) as (s3 & Hs3 & I3). exists s3. split; [done|].
    destruct I2 as (?&?&?&?), I3 as (?&?&?&?). repeat split; congruence.
Qed.

Lemma same_store_tokens_only w w' : store w' = store w → tokens_only w w'.
Proof.
  intros Hst. split; [by rewrite Hst|].
  intros l s Hs. exists s. rewrite Hst. by repeat split.
Qed.

Lemma set_token_tokens_only self token : relates tokens_only (set_token self token).
Proof.
  intros w. unfold set_token, mbind, M_mbind, M_bind, deref, write.
  destruct (store w !! self) as [s|] eqn:Hs; simpl; [|reflexivity].
  fold (with_token s token).
  split; simpl; [by rewrite length_insert|].
  intros l s0 Hl. destruct (decide (l = self)) as [->|Hne].
  - exists (with_token s token).
    rewrite list_lookup_insert_eq by (by eapply lookup_lt_Some).
    split; [done|]. assert (s0 = s) as -> by congruence. by repeat split.
  - exists s0. rewrite list_lookup_insert_ne by done. by repeat split.
Qed.

Lemma Session_init_tokens_only self : relates tokens_only (Session_init self).
Proof. intros w. by apply same_store_tokens_only. Qed.

Section Own.
Variable server : list Request → Request → option Response.

Lemma send_tokens_only rq : relates tokens_only (send server rq).
Proof. intros w. apply same_store_tokens_only, send_same_sessions. Qed.

(** X8. Whatever the reply is, and whether [refresh] returns or raises, it
    creates and removes no session and leaves the id, the refresh token and
    both expiry times of every session as they were: the only field it can
    change is an access token.  The expiry time of a new token is therefore
    not recorded; [token_expiration] keeps the value of the old token. *)
Theorem Session_refresh_keeps_identities (self : ref) (w : World) :
  let w' := (Session_refresh server self w).2 in
  length (store w') = length (store w)
  ∧ ∀ l s, store w !! l = Some s →
           ∃ s', store w' !! l = Some s'
                 ∧ Session_id s' = Session_id s
                 ∧ Session_refresh_token s' = Session_refresh_token s
                 ∧ Session_token_expiration s' = Session_token_expiration s
                 ∧ Session_refresh_token_expiration s'
                   = Session_refresh_token_expiration s.
Proof.
  assert (H : relates tokens_only (Session_refresh server self)).
  { unfold Session_refresh.
    pose proof send_tokens_only. pose proof set_token_tokens_only.
    pose proof Session_init_tokens_only. auto 20 with frame. }
  apply H.
Qed.

Lemma Session_refresh_sent self w s r :
  store w !! self = Some s →
  server (log w) (refresh_request s) = Some r →
  ∀ B (f : Response → M B),
    (s ← deref self;
     send server (refresh_request s) ≫= f) w
    = f r (sent (refresh_request s) w).
Proof.
  intros Hs Hr B f. rewrite (M_bind_Ok _ _ _ _ _ (deref_run _ _ _ Hs)).
  by rewrite (M_bind_Ok _ _ _ _ _ (send_run _ _ _ _ Hr)).
Qed.

(** X9. A refresh whose reply carries no token, its [data] being absent,
    [null] or empty, changes nothing but the log.  It raises [InvalidToken]
    on status 401 and returns normally, as if it had worked, on every status
    code outside the table, 200 included.  The body is decoded before the
    status is looked at: a reply that is not JSON ends in the decoder's
    error whatever its status. *)
Theorem Session_refresh_without_token (self : ref) (w : World) (s : Session)
    (r : Response) :
  store w !! self = Some s →
  server (log w) (refresh_request s) = Some r →
  (json_body r = None →
   Session_refresh server self w
   = (Raise JSONDecodeError, sent (refresh_request s) w))
  ∧ (∀ session, json_data r = Ok session → truthy session = false →
     (Session_refresh server self w).2 = sent (refresh_request s) w
     ∧ (status_code r = 401 →
        (Session_refresh server self w).1
        = Raise (XYZException errors.InvalidToken r
                   (Some "Can not refresh session. Invalid refresh token.")))
     ∧ ((Session_refresh server self w).1 = Ok tt
        ↔ status_code r ∉ mapped_codes)).
Proof.
  intros Hs Hr. unfold Session_refresh. fold (refresh_request s).
  rewrite (Session_refresh_sent self w s r Hs Hr). split.
  - intros Hb. erewrite M_bind_Raise; [done|].
    unfold json_data. by rewrite Hb.
  - intros session Hd Hf. rewrite Hd.
    rewrite (M_bind_Ok _ _ _ session _ (lift_run _ _)). rewrite Hf.
    rewrite check_status_then_run; [|lia| |].
    + simpl. split_and!; [done | by intros -> |].
      destruct (Z.eqb_spec (status_code r) 401) as [Heq|Hne].
      * split; [done|]. intros Hn. destruct Hn. rewrite Heq.
        rewrite list_elem_of_In. simpl. tauto.
      * apply raise_for_errors_silent_nil.
    + intros Hc. apply raise_for_errors_silent. right. rewrite Hc.
      apply list_elem_of_here.
    + intros Hc. rewrite list_elem_of_In. simpl. lia.
Qed.

(** X10. [_authorization] holds the session object itself, not a copy of
    its token: once a refresh of the active session has obtained a token,
    the next authorized call (here [me]) sends the new token. *)
Theorem refreshed_token_is_used (self : ref) (w : World) (s : Session)
    (r : Response) (session token : pyval) :
  _authorization w = Some self →
  store w !! self = Some s →
  server (log w) (refresh_request s) = Some r →
  json_data r = Ok session → truthy session = true →
  py_get session "token" = Ok token →
  let w' := (Session_refresh server self w).2 in
  log (me server w').2 = (log w' ++ [me_request token])%list.
Proof.
  intros Ha Hs Hr Hd Ht Hk w'. subst w'.
  rewrite (Session_refresh_run _ _ _ _ _ _ _ Hs Hr Hd Ht Hk), Ha.
  assert (Hl : <[self := with_token s token]> (store w) !! self
               = Some (with_token s token)).
  { apply list_lookup_insert_eq. by eapply lookup_lt_Some. }
  exact (me_log server
           (mkWorld (<[self := with_token s token]> (store w)) (Some self)
              (log w ++ [refresh_request s]))
           self (with_token s token) eq_refl Hl).
Qed.

Lemma Session_info_sent self w s r :
  store w !! self = Some s →
  server (log w) (info_request s) = Some r →
  Session_info server self w
  = ((when (400 <=? status_code r)
        (lift (_raise_for_errors r [401; 404]);;
         when (status_code r =? 401)
           (lift (raise_new errors.InvalidToken (OResp r)
                    (Some "invalid session token.")));;
         when (status_code r =? 404)
           (lift (raise_new errors.NotFound (OResp r)
                    (Some "session was closed or not found."))));;
      session_info ← lift (json_data r);
      lift (SessionInfo_init session_info)) (sent (info_request s) w)).
Proof.
  intros Hs Hr. unfold Session_info.
  rewrite (M_bind_Ok _ _ _ _ _ (deref_run _ _ _ Hs)).
  fold (info_request s).
  by rewrite (M_bind_Ok _ _ _ _ _ (send_run _ _ _ _ Hr)).
Qed.

(** X11. [Session.info] asks with the session's own token and gives two
    status codes a meaning of its own: 401 raises [InvalidToken] and 404
    raises [NotFound] with the message that the session was closed.  On a
    status code outside the table the result is the [SessionInfo] decoded
    from the [data] field, or the error of that decoding. *)
Theorem Session_info_outcome (self : ref) (w : World) (s : Session)
    (r : Response) :
  store w !! self = Some s →
  server (log w) (info_request s) = Some r →
  let w1 := sent (info_request s) w in
  (status_code r = 401 →
   Session_info server self w
   = (Raise (XYZException errors.InvalidToken r (Some "invalid session token.")),
      w1))
  ∧ (status_code r = 404 →
     Session_info server self w
     = (Raise (XYZException errors.NotFound r
                 (Some "session was closed or not found.")), w1))
  ∧ (status_code r ∉ mapped_codes →
     Session_info server self w
     = (session_info ← json_data r; SessionInfo_init session_info, w1)).
Proof.
  intros Hs Hr w1. rewrite (Session_info_sent _ _ _ _ Hs Hr). fold w1.
  assert (Hex : ∀ c, status_code r = c → c ∈ [401; 404] →
                     _raise_for_errors r [401; 404] = Ok tt).
  { intros c <- Hin. apply raise_for_errors_silent. by right. }
  split_and!.
  - intros Hc.
    assert (Hq : _raise_for_errors r [401; 404] = Ok tt)
      by (apply (Hex 401 Hc); rewrite list_elem_of_In; simpl; tauto).
    erewrite M_bind_Raise; [done|].
    assert ((400 <=? status_code r) = true) as -> by lia.
    assert ((status_code r =? 401) = true) as -> by lia.
    cbn [when].
    rewrite (M_bind_Ok _ _ _ tt w1) by (by rewrite lift_run, Hq).
    by erewrite M_bind_Raise; [|reflexivity].
  - intros Hc.
    assert (Hq : _raise_for_errors r [401; 404] = Ok tt)
      by (apply (Hex 404 Hc); rewrite list_elem_of_In; simpl; tauto).
    erewrite M_bind_Raise; [done|].
    assert ((400 <=? status_code r) = true) as -> by lia.
    assert ((status_code r =? 401) = false) as -> by lia.
    assert ((status_code r =? 404) = true) as -> by lia.
    cbn [when].
    rewrite (M_bind_Ok _ _ _ tt w1) by (by rewrite lift_run, Hq).
    by rewrite (M_bind_Ok _ _ _ tt w1) by reflexivity.
  - intros Hm.
    assert (H401 : (status_code r =? 401) = false).
    { apply Z.eqb_neq. intros Hc. apply Hm. rewrite Hc, list_elem_of_In. simpl. tauto. }
    assert (H404 : (status_code r =? 404) = false).
    { apply Z.eqb_neq. intros Hc. apply Hm. rewrite Hc, list_elem_of_In. simpl. tauto. }
    rewrite H401, H404.
    rewrite (M_bind_Ok _ _ _ tt w1).
    + unfold mbind at 1, M_mbind, M_bind, lift.
      destruct (json_data r) as [v|e]; [|done]. done.
    + destruct (400 <=? status_code r); [|done]. simpl.
      rewrite (M_bind_Ok _ _ _ tt w1); [done|].
      rewrite lift_run. f_equal. apply raise_for_errors_silent. by left.
Qed.

End Own.

(** ** From signing in to the first authorized call *)

Section SignIn.
Variable server : list Request → Request → option Response.

Lemma authorize_run (w : World) (e p : string) (r : Response) (d : dict) :
  e ≠ "" → p ≠ "" →
  server (log w) (authorize_request (PStr e) (PStr p)) = Some r →
  status_code r ∉ 403 :: mapped_codes →
  json_data r = Ok (PDict d) →
  authorize server (PStr e) (PStr p) w
  = (Ok (length (store w)),
     mkWorld (store w ++ [Session_of d]) (_authorization w)
       (log w ++ [authorize_request (PStr e) (PStr p)])).
Proof.
  intros He Hp Hr Hc Hd. unfold authorize.
  rewrite (authorize_sends server w e p r He Hp Hr).
  erewrite M_bind_Ok.
  2:{ rewrite check_status_then_run; [|lia|apply forbidden_unmapped|].
      - apply not_elem_of_cons in Hc as [Hne Hm].
        apply Z.eqb_neq in Hne. rewrite Hne.
        by rewrite (proj2 (raise_for_errors_silent_nil r) Hm).
      - intros _. apply not_elem_of_nil. }
  rewrite Hd. erewrite M_bind_Ok; [|reflexivity].
  rewrite Session_new_dict. by erewrite M_bind_Ok; [|reflexivity].
Qed.

(** X12. [authorize] creates a session but does not publish it: sessions
    that existed keep their place and their content, [_authorization] is as
    before, and with no session published an authorized call made right
    after signing in still stops at the guard.  Once [init] has been called
    on the new session, authorized calls carry the token of the reply. *)
Theorem authorize_then_init (w : World) (e p : string) (r : Response)
    (d : dict) :
  e ≠ "" → p ≠ "" →
  server (log w) (authorize_request (PStr e) (PStr p)) = Some r →
  status_code r ∉ 403 :: mapped_codes →
  json_data r = Ok (PDict d) →
  let new := length (store w) in
  let w1 := (authorize server (PStr e) (PStr p) w).2 in
  (authorize server (PStr e) (PStr p) w).1 = Ok new
  ∧ _authorization w1 = _authorization w
  ∧ (∀ l s, store w !! l = Some s → store w1 !! l = Some s)
  ∧ (_authorization w = None → (me server w1).2 = w1)
  ∧ log (me server (Session_init new w1).2).2
    = (log w1 ++ [me_request (field d "token")])%list.
Proof.
  intros He Hp Hr Hc Hd new w1. subst w1.
  rewrite (authorize_run w e p r d He Hp Hr Hc Hd). simpl.
  split_and!.
  - done.
  - done.
  - intros l s Hl. by apply lookup_app_l_Some.
  - intros Hn. unfold me. by rewrite _auth_required_fail.
  - assert (Hl : (store w ++ [Session_of d])%list !! new = Some (Session_of d)).
    { subst new. by rewrite lookup_app_r, Nat.sub_diag by lia. }
    exact (me_log server
             (mkWorld (store w ++ [Session_of d]) (Some new)
                (log w ++ [authorize_request (PStr e) (PStr p)])%list)
             new (Session_of d) eq_refl Hl).
Qed.

End SignIn.

(** ** Arguments that are turned away *)


#[local] Instance text_argument_dec i : Decision (text_argument i).
Proof. unfold text_argument. apply _. Defined.

Lemma assert_strings_Ok m1 m2 args :
  assert_strings m1 m2 args = Ok tt ↔ Forall text_argument args.
Proof.
  induction args as [|i args IH]; [by split|].
  rewrite Forall_cons, <- IH. unfold text_argument. simpl.
  destruct (isinstance_str i), (truthy i); simpl;
    (split; [intros H; try done; by repeat split | by intros [[? ?] ?]]).
Qed.


Lemma assert_Raise b msg : b = false → assert_ b msg = Raise (AssertionError msg).
Proof. by intros ->. Qed.

Section TurnedAway.
Variable server : list Request → Request → option Response.


End TurnedAway.

(** ** The body of [create_gdps] *)


Lemma text_argument_truthy i : text_argument i → truthy i = true.
Proof. by intros [_ ?]. Qed.

Section Create.
Variable server : list Request → Request → option Response.


End Create.

(** ** Lists of results *)

Lemma result_mapM_Ok {A B} (f : A → result B) (l : list A) (l' : list B) :
  result_mapM f l = Ok l' ↔ Forall2 (λ a b, f a = Ok b) l l'.
Proof.
  revert l'. induction l as [|a l IH]; intros l'; simpl.
  - split; [intros [= <-]; constructor | by intros ->%Forall2_nil_inv_l].
  - destruct (f a) as [b|e] eqn:Hfa; simpl.
    + destruct (result_mapM f l) as [bs|e] eqn:Hm; simpl.
      * split.
        -- intros [= <-]. constructor; [done | by apply IH].
        -- intros (b' & bs' & Hb & Hbs & ->)%Forall2_cons_inv_l.
           apply IH in Hbs. congruence.
      * split; [done|].
        intros (b' & bs' & Hb & Hbs & ->)%Forall2_cons_inv_l.
        apply IH in Hbs. congruence.
    + split; [done|].
      intros (b' & bs' & Hb & Hbs & ->)%Forall2_cons_inv_l. congruence.
Qed.

(** What the listing operations do with a reply. *)
Lemma listing_tail {T} (decode : pyval → result T) (r : Response) (w1 : World) :
  (when (400 <=? status_code r) (lift (_raise_for_errors r []));;
   v ← lift (json_data r);
   lift (items ← py_iter v; result_mapM decode items)) w1
  = (_raise_for_errors r [];;
     v ← json_data r; items ← py_iter v; result_mapM decode items, w1).
Proof.
  unfold mbind at 1, M_mbind, M_bind. rewrite check_status_run.
  destruct (_raise_for_errors r []) as [[]|e]; [|done]. simpl.
  unfold lift. by destruct (json_data r).
Qed.

Section Listings.
Variable server : list Request → Request → option Response.

(** X15. A listing ([top], [search_for_gdps], [GDPS.get_comment_page],
    [MyAccount.gdpslist], [Session.sessions]) whose reply is accepted and carries a list in [data] returns the objects
    decoded from the items, one for one and in their order; a single item
    that does not decode makes the whole call raise, there are no partial
    results.  A reply without [data] raises [TypeError]: it is not read as
    an empty list. *)
Theorem listings_decode_item_by_item (w : World) (r : Response) :
  (∀ rq, server (log w) rq = Some r) →
  status_code r ∉ mapped_codes →
  (∀ items, json_data r = Ok (PList items) →
     (∀ gs, (top server w).1 = Ok gs
            ↔ Forall2 (λ item g, GDPS_init item = Ok g) items gs)
     ∧ (∀ q n gs, q ≠ "" → n ≠ 0 →
          (search_for_gdps server (PStr q) (PInt n) w).1 = Ok gs
          ↔ Forall2 (λ item g, GDPS_init item = Ok g) items gs)
     ∧ (∀ g n cs, n ≠ 0 →
          (GDPS_get_comment_page server g (PInt n) w).1 = Ok cs
          ↔ Forall2 (λ item c, Comment_init item = Ok c) items cs)
     ∧ (∀ l s n gs, n ≠ 0 → _authorization w = Some l → store w !! l = Some s →
          (MyAccount_gdpslist server (PInt n) w).1 = Ok gs
          ↔ Forall2 (λ item g, GDPS_init item = Ok g) items gs)
     ∧ (∀ self s n infos, n ≠ 0 → store w !! self = Some s →
          (Session_sessions server self (PInt n) w).1 = Ok infos
          ↔ Forall2 (λ item i, SessionInfo_init item = Ok i) items infos))
  ∧ (json_data r = Ok PNone →
     (top server w).1 = Raise TypeError
     ∧ (∀ q n, q ≠ "" → n ≠ 0 →
          (search_for_gdps server (PStr q) (PInt n) w).1 = Raise TypeError)
     ∧ (∀ g n, n ≠ 0 →
          (GDPS_get_comment_page server g (PInt n) w).1 = Raise TypeError)).
Proof.
  intros Hr Hc.
  pose proof (proj2 (raise_for_errors_silent_nil r) Hc) as Hq.
  assert (Htop : ∀ w, (∀ rq, server (log w) rq = Some r) →
            (top server w).1
            = (v ← json_data r; items ← py_iter v; result_mapM GDPS_init items)).
  { intros w0 Hr0. unfold top.
    rewrite (M_bind_Ok _ _ _ _ _ (send_run _ _ _ _ (Hr0 _))).
    rewrite listing_tail, Hq. done. }
  assert (Hsearch : ∀ q n, q ≠ "" → n ≠ 0 →
            (search_for_gdps server (PStr q) (PInt n) w).1
            = (v ← json_data r; items ← py_iter v; result_mapM GDPS_init items)).
  { intros q n Hq0 Hn. unfold search_for_gdps.
    rewrite (truthy_PStr q Hq0), (truthy_PInt n Hn). pass_checks.
    rewrite (M_bind_Ok _ _ _ _ _ (send_run _ _ _ _ (Hr _))).
    rewrite listing_tail, Hq. done. }
  assert (Hpage : ∀ g n, n ≠ 0 →
            (GDPS_get_comment_page server g (PInt n) w).1
            = (v ← json_data r; items ← py_iter v; result_mapM Comment_init items)).
  { intros g n Hn. unfold GDPS_get_comment_page.
    rewrite (truthy_PInt n Hn). pass_checks.
    rewrite (M_bind_Ok _ _ _ _ _ (send_run _ _ _ _ (Hr _))).
    rewrite listing_tail, Hq. done. }
  assert (Hmine : ∀ l s n, n ≠ 0 → _authorization w = Some l →
            store w !! l = Some s →
            (MyAccount_gdpslist server (PInt n) w).1
            = (v ← json_data r; items ← py_iter v; result_mapM GDPS_init items)).
  { intros l s n Hn Ha Hs. unfold MyAccount_gdpslist.
    rewrite _auth_required_pass by (by rewrite Ha).
    rewrite (truthy_PInt n Hn). pass_checks.
    rewrite (M_bind_Ok _ _ _ _ _ (send_run _ _ _ _ (Hr _))).
    rewrite listing_tail, Hq. done. }
  assert (Hsessions : ∀ self s n, n ≠ 0 → store w !! self = Some s →
            (Session_sessions server self (PInt n) w).1
            = (v ← json_data r; items ← py_iter v;
               result_mapM SessionInfo_init items)).
  { intros self s n Hn Hs. unfold Session_sessions.
    rewrite (truthy_PInt n Hn). pass_checks.
    rewrite (M_bind_Ok _ _ _ _ _ (send_run _ _ _ _ (Hr _))).
    rewrite listing_tail, Hq. done. }
  split.
  - intros items Hd. split_and!; intros.
    + rewrite Htop, Hd by done. apply result_mapM_Ok.
    + rewrite Hsearch, Hd by done. apply result_mapM_Ok.
    + rewrite Hpage, Hd by done. apply result_mapM_Ok.
    + erewrite Hmine, Hd by done. apply result_mapM_Ok.
    + erewrite Hsessions, Hd by done. apply result_mapM_Ok.
  - intros Hd. split_and!; intros.
    + by rewrite Htop, Hd.
    + by rewrite Hsearch, Hd.
    + by rewrite Hpage, Hd.
Qed.

End Listings.

(** ** Arguments of the update loop that are neither omitted nor text *)

Lemma dict_del_no_assertion (body : dict) key msg :
  dict_del body key ≠ Raise (AssertionError msg).
Proof.
  induction body as [|[k v] body IH]; simpl; [done|].
  destruct (String.eqb k key); [done|].
  destruct (dict_del body key); simpl; congruence.
Qed.

Lemma del_next_islice_no_assertion (body : dict) i msg :
  del_next_islice body i ≠ Raise (AssertionError msg).
Proof.
  unfold del_next_islice.
  destruct (islice_start i) as [start|e] eqn:Hi; simpl.
  - destruct (body.*1 !! start); [apply dict_del_no_assertion | done].
  - destruct i as [| |n| | |]; simpl in Hi; try congruence.
    destruct (0 <=? n); congruence.
Qed.

(** X16. In the loop of [MyAccount.update] and [GDPS.update] the assertion
    "do not leave argument empty after passing it" can never fail, because
    it is only reached for arguments that are true.  An empty string given
    as the first argument raises [ValueError] (from [islice]) instead, and
    a true argument that is not a string raises the first assertion. *)
Theorem update_loop_edge_cases (msg : string) (args : list pyval) (body : dict) :
  (msg ≠ left_empty → update_loop msg args body ≠ Raise (AssertionError left_empty))
  ∧ update_loop msg (PStr "" :: args) body = Raise ValueError
  ∧ (∀ i, truthy i = true → isinstance_str i = false →
          update_loop msg (i :: args) body = Raise (AssertionError msg)).
Proof.
  split_and!.
  - intros Hmsg. revert body.
    induction args as [|i args IH]; intros body; [done|].
    cbn [update_loop]. destruct (truthy i) eqn:Ht.
    + destruct (isinstance_str i); simpl; [apply IH|].
      intros [= H]. by apply Hmsg.
    + pose proof (del_next_islice_no_assertion body i left_empty) as Hd.
      destruct (del_next_islice body i) as [body'|e]; simpl; [apply IH | done].
  - done.
  - intros i Ht Hs. cbn [update_loop]. by rewrite Ht, Hs.
Qed.

(** ** After the [with] block *)

#[global] Instance same_active_preorder : PreOrder same_active.
Proof.
  split; [by intros w|].
  intros w1 w2 w3 H1 H2. unfold same_active in *. congruence.
Qed.

Section AfterScope.
Variable server : list Request → Request → option Response.

Lemma Session_close_same_active self : relates same_active (Session_close server self).
Proof. intros w. apply (Session_close_same_sessions server self w). Qed.

Lemma Session__exit__same_active self exc :
  relates same_active (Session__exit__ server self exc).
Proof.
  unfold Session__exit__. pose proof (Session_close_same_active self).
  auto 10 with frame.
Qed.

(** X17. Leaving the [with] block does not take the session out of
    [_authorization], and does not put back the session that was active
    before: if the block itself does not change the variable, the session of
    the [with] statement, closed or not, is the active one afterwards. *)
Theorem with_Session_leaves_session_published {A} (self : ref)
    (block : ref → M A) (w : World) :
  (∀ v, relates same_active (block v)) →
  _authorization (with_Session server self block w).2 = Some self.
Proof.
  intros Hblock. unfold with_Session, with_stmt.
  rewrite (M_bind_Ok _ _ _ _ _ (Session__enter__run self w)).
  match goal with |- _authorization (?m ?w1).2 = _ =>
    assert (Hm : relates same_active m) end.
  { pose proof Session__exit__same_active.
    apply relates_bind; [apply _ | auto with frame |].
    intros [a|e]; auto 10 with frame. }
  apply Hm.
Qed.

End AfterScope.

(** ** Results that are handed through *)

Section HandedThrough.
Variable server : list Request → Request → option Response.

(** X18. [me] turns a 401 reply into [NotInitialized], although a session
    is published (the token was rejected, not missing).  On a status code
    outside the table it returns the account decoded from [data] when that
    is an object, and [None], not an error, when it is anything else. *)
Theorem me_outcome (w : World) (l : ref) (s : Session) (r : Response) :
  _authorization w = Some l → store w !! l = Some s →
  server (log w) (me_request (Session_token s)) = Some r →
  (status_code r = 401 →
   (me server w).1
   = Raise (XYZException errors.NotInitialized r
              (Some "you have hot initialized your session or did it wrong.")))
  ∧ (status_code r ∉ mapped_codes → ∀ v, json_data r = Ok v →
     (me server w).1
     = Ok (match v with PDict d => Some (MyAccount_of d) | _ => None end)).
Proof.
  intros Ha Hs Hr. unfold me.
  rewrite (authorized_request_run server me_request _ _ _ _ _ Ha Hs Hr).
  split.
  - intros Hc. erewrite M_bind_Raise; [done|].
    rewrite check_status_run. f_equal.
    unfold _raise_for_errors. simpl. by rewrite Hc.
  - intros Hc v Hv.
    rewrite (M_bind_Ok _ _ _ tt (sent (me_request (Session_token s)) w))
      by (by rewrite check_status_run, (proj2 (raise_for_errors_silent_nil r) Hc)).
    rewrite Hv. erewrite M_bind_Ok; [|reflexivity].
    by destruct v.
Qed.

(** X19. The two creating operations return the [data] field of an
    accepted reply as it is, without looking at it: the new id when the
    server sent one, and [None], not an error, when [data] is missing. *)
Theorem create_returns_data (w : World) (l : ref) (s : Session) (r : Response) :
  _authorization w = Some l → store w !! l = Some s →
  (∀ rq, server (log w) rq = Some r) →
  status_code r ∉ mapped_codes →
  (∀ g text, text_argument text →
     (GDPS_create_comment server g text w).1 = json_data r)
  ∧ (∀ name desc link, Forall text_argument [name; desc; link] →
       (create_gdps server name desc link PNone PNone w).1 = json_data r).
Proof.
  intros Ha Hs Hr Hc.
  pose proof (proj2 (raise_for_errors_silent_nil r) Hc) as Hq.
  split.
  - intros g text [Hstr Ht]. unfold GDPS_create_comment.
    rewrite _auth_required_pass by (by rewrite Ha). rewrite Hstr, Ht.
    pass_checks. rewrite (M_bind_Ok _ _ _ _ _ (send_run _ _ _ _ (Hr _))).
    unfold mbind, M_mbind, M_bind. by rewrite check_status_run, Hq.
  - intros name desc link Hargs. unfold create_gdps.
    rewrite _auth_required_pass by (by rewrite Ha).
    rewrite (proj2 (assert_strings_Ok _ _ _) Hargs).
    pass_checks. rewrite (M_bind_Ok _ _ _ _ _ (send_run _ _ _ _ (Hr _))).
    unfold mbind, M_mbind, M_bind. by rewrite check_status_run, Hq.
Qed.

End HandedThrough.

(** ** Instances of the further properties on concrete runs *)

Lemma decoding_needs_object_timestamps_witness :
  GDPS_init (PDict sample.bare) = Ok (GDPS_of sample.bare)
  ∧ ∃ t, GDPS_init (PDict sample.null_timestamps) = Raise (AttributeError t "get").
Proof.
  split.
  - exact (proj1 (proj1 (decoding_needs_object_timestamps sample.bare) I)).
  - destruct (proj2 (decoding_needs_object_timestamps sample.null_timestamps)
                (λ H, H)) as (t & _ & Hg & _).
    by exists t.
Defined.

Lemma GDPS_accessors_need_their_objects_witness :
  succeeds (GDPS_links (GDPS_of sample.entry))
  ∧ ¬ succeeds (GDPS_owner (GDPS_of sample.bare)).
Proof.
  split.
  - apply (proj1 (proj2 (proj2 (GDPS_accessors_need_their_objects sample.entry
                                   (GDPS_of sample.entry) eq_refl)))).
    by eexists _, _.
  - intros Hok.
    apply (proj1 (GDPS_accessors_need_their_objects sample.bare
                    (GDPS_of sample.bare) eq_refl)) in Hok as [d Hd].
    discriminate Hd.
Defined.

Lemma Comment_and_SessionInfo_accessors_witness :
  succeeds (Comment_author (Comment_of sample.comment))
  ∧ succeeds (SessionInfo_ips (SessionInfo_of sample.session_info)).
Proof.
  split.
  - apply (proj1 (proj1 (Comment_and_SessionInfo_accessors sample.comment)
                    (Comment_of sample.comment) eq_refl)).
    by eexists.
  - apply (proj2 (Comment_and_SessionInfo_accessors sample.session_info)
             (SessionInfo_of sample.session_info) eq_refl).
    by eexists.
Defined.

Lemma silent_operations_succeed_iff_unmapped_witness :
  (GDPS_delete (scenario.always 403 "Forbidden" None) scenario.galaxium
     scenario.alice_active).1 = Ok tt.
Proof.
  apply (proj1 (silent_operations_succeed_iff_unmapped
                  (scenario.always 403 "Forbidden" None) scenario.alice_active
                  0 scenario.alice (mkResponse 403 "Forbidden" None)
                  eq_refl eq_refl (λ _, eq_refl)) scenario.galaxium).
  rewrite list_elem_of_In. simpl. lia.
Defined.

Lemma forbidden_reply_at_call_sites_witness :
  let forbidden := mkResponse 403 "Forbidden" None in
  (GDPS_unvote (scenario.always 403 "Forbidden" None) scenario.galaxium
     scenario.alice_active).1
  = Raise (XYZException errors.NotFound forbidden (Some "you have not voted.")).
Proof.
  intros forbidden.
  exact (proj1 (proj1 (forbidden_reply_at_call_sites
                         (scenario.always 403 "Forbidden" None)
                         scenario.alice_active 0 scenario.alice forbidden
                         eq_refl eq_refl (λ _, eq_refl)) eq_refl)
           scenario.galaxium).
Defined.

Lemma Session_close_outcome_witness :
  let unauthorized := mkResponse 401 "Unauthorized" None in
  (Session_close (scenario.always 401 "Unauthorized" None) 0
     scenario.alice_active).1
  = Raise (XYZException errors.InvalidToken unauthorized
             (Some "invalid session token.")).
Proof.
  intros unauthorized.
  exact (proj1 (Session_close_outcome (scenario.always 401 "Unauthorized" None)
                  0 scenario.alice_active scenario.alice unauthorized
                  eq_refl eq_refl) eq_refl).
Defined.

Lemma Session_refresh_keeps_identities_witness :
  let server := scenario.always 200 "OK" (scenario.data scenario.new_token) in
  ∃ s', store (Session_refresh server 1 scenario.alice_active_bob_idle).2 !! 1%nat
        = Some s'
        ∧ Session_token_expiration s' = PInt 1700000500.
Proof.
  intros server.
  destruct (proj2 (Session_refresh_keeps_identities server 1
                     scenario.alice_active_bob_idle) 1%nat scenario.bob eq_refl)
    as (s' & Hs' & _ & _ & Hexp & _).
  exists s'. by split.
Defined.

Lemma Session_refresh_without_token_witness :
  let server := scenario.always 200 "OK" (Some (PDict [])) in
  (Session_refresh server 0 scenario.alice_active).1 = Ok tt
  ∧ store (Session_refresh server 0 scenario.alice_active).2
    = store scenario.alice_active.
Proof.
  intros server.
  destruct (proj2 (Session_refresh_without_token server 0 scenario.alice_active
                     scenario.alice (mkResponse 200 "OK" (Some (PDict [])))
                     eq_refl eq_refl) PNone eq_refl eq_refl)
    as (Hw & _ & Hok).
  split.
  - apply Hok. rewrite list_elem_of_In. simpl. lia.
  - by rewrite Hw.
Defined.

Lemma refreshed_token_is_used_witness :
  let server := scenario.always 200 "OK" (scenario.data scenario.new_token) in
  log (me server (Session_refresh server 0 scenario.alice_active).2).2
  = [refresh_request scenario.alice; me_request (PStr "tok-new")].
Proof.
  intros server.
  exact (refreshed_token_is_used server 0 scenario.alice_active scenario.alice
           (mkResponse 200 "OK" (scenario.data scenario.new_token))
           scenario.new_token (PStr "tok-new")
           eq_refl eq_refl eq_refl eq_refl eq_refl eq_refl).
Defined.

Lemma Session_info_outcome_witness :
  let gone := mkResponse 404 "Not Found" None in
  (Session_info (scenario.always 404 "Not Found" None) 0 scenario.alice_active).1
  = Raise (XYZException errors.NotFound gone
             (Some "session was closed or not found.")).
Proof.
  intros gone.
  exact (f_equal fst
           (proj1 (proj2 (Session_info_outcome
                            (scenario.always 404 "Not Found" None) 0
                            scenario.alice_active scenario.alice gone
                            eq_refl eq_refl)) eq_refl)).
Defined.

Lemma authorize_then_init_witness :
  let server := scenario.always 200 "OK" (scenario.data scenario.token_pair) in
  let w1 := (authorize server (PStr "a@gdps.xyz") (PStr "secret") scenario.fresh).2 in
  (me server w1).2 = w1
  ∧ log (me server (Session_init 0 w1).2).2
    = [authorize_request (PStr "a@gdps.xyz") (PStr "secret");
       me_request (PStr "tok-c")].
Proof.
  intros server w1.
  assert (Hc : 200 ∉ 403 :: mapped_codes) by (rewrite list_elem_of_In; simpl; lia).
  destruct (authorize_then_init server scenario.fresh "a@gdps.xyz" "secret"
              (mkResponse 200 "OK" (scenario.data scenario.token_pair))
              [("id", PInt 13); ("token", PStr "tok-c"); ("refreshToken", PStr "ref-c");
               ("tokenExpiration", PInt 1700000900);
               ("refreshTokenExpiration", PInt 1800000900)]
              ltac:(discriminate) ltac:(discriminate) eq_refl Hc eq_refl)
    as (_ & _ & _ & Hguard & Hme).
  split; [exact (Hguard eq_refl) | exact Hme].
Defined.



Lemma listings_decode_item_by_item_witness :
  let items := [PDict sample.entry; PDict sample.bare] in
  (top (scenario.always 200 "OK" (scenario.data (PList items))) scenario.fresh).1
  = Ok [GDPS_of sample.entry; GDPS_of sample.bare].
Proof.
  intros items.
  assert (Hc : 200 ∉ mapped_codes) by (rewrite list_elem_of_In; simpl; lia).
  apply (proj1 (proj1 (listings_decode_item_by_item
                         (scenario.always 200 "OK" (scenario.data (PList items)))
                         scenario.fresh
                         (mkResponse 200 "OK" (scenario.data (PList items)))
                         (λ _, eq_refl) Hc) items eq_refl)).
  repeat constructor.
Defined.

Lemma update_loop_edge_cases_witness :
  update_loop "account informations must be strings." [PInt 5]
    [("email", PInt 5)]
  = Raise (AssertionError "account informations must be strings.").
Proof.
  exact (proj2 (proj2 (update_loop_edge_cases
                         "account informations must be strings." []
                         [("email", PInt 5)]))
           (PInt 5) eq_refl eq_refl).
Defined.

Lemma with_Session_leaves_session_published_witness :
  _authorization
    (with_Session (scenario.always 200 "OK" None) 1 (λ _, mret tt : M unit)
       scenario.alice_active_bob_idle).2
  = Some 1%nat.
Proof.
  apply with_Session_leaves_session_published.
  intros v w. reflexivity.
Defined.

Lemma me_outcome_witness :
  let unauthorized := mkResponse 401 "Unauthorized" None in
  (me (scenario.always 401 "Unauthorized" None) scenario.alice_active).1
  = Raise (XYZException errors.NotInitialized unauthorized
             (Some "you have hot initialized your session or did it wrong.")).
Proof.
  intros unauthorized.
  exact (proj1 (me_outcome (scenario.always 401 "Unauthorized" None)
                  scenario.alice_active 0 scenario.alice unauthorized
                  eq_refl eq_refl eq_refl) eq_refl).
Defined.

Lemma create_returns_data_witness :
  (GDPS_create_comment (scenario.always 200 "OK" (Some (PDict [])))
     scenario.galaxium (PStr "Hello!") scenario.alice_active).1
  = Ok PNone.
Proof.
  assert (Hc : 200 ∉ mapped_codes) by (rewrite list_elem_of_In; simpl; lia).
  exact (proj1 (create_returns_data (scenario.always 200 "OK" (Some (PDict [])))
                  scenario.alice_active 0 scenario.alice
                  (mkResponse 200 "OK" (Some (PDict [])))
                  eq_refl eq_refl (λ _, eq_refl) Hc)
           scenario.galaxium (PStr "Hello!") (conj eq_refl eq_refl)).
Defined.
